(** * The chat widget of [src/app/page.tsx], as a state machine

    The component [ChatInterface] keeps four pieces of React state
    ([messages], [inputMessage], [isLoading], [isDarkMode]) and talks to
    three things outside itself: [localStorage], the class list of the
    document element, and one HTTP endpoint reached through [fetch].

    The embedding follows the second definition of the component in the
    source file (the one with the [Message] interface and the dark mode).
    Handlers are functions on a [World]; an [async] handler is cut at its
    suspension point into the part that runs at once and the continuation
    that runs when the request settles. *)

From Stdlib Require Import Ascii DecimalString.
From stdpp Require Import gmap strings list fin_maps sorting.

Set Warnings "-register-all".


(** ** JavaScript strings

    A [string] is read as a sequence of UTF-16 code units below 256, one
    per character. *)

Module Js.

(** White space and line terminators of ECMAScript in that range:
    TAB, LF, VT, FF, CR, SP and NBSP. *)
Definition is_whitespace (c : ascii) : bool :=
  let n := Ascii.N_of_ascii c in
  (N.leb 9 n && N.leb n 13) || N.eqb n 32 || N.eqb n 160.

Definition is_empty (s : string) : bool :=
  match s with
  | EmptyString => true
  | String _ _ => false
  end.

Fixpoint trimStart (s : string) : string :=
  match s with
  | EmptyString => EmptyString
  | String c s' => if is_whitespace c then trimStart s' else s
  end.

Fixpoint trimEnd (s : string) : string :=
  match s with
  | EmptyString => EmptyString
  | String c s' =>
      let t := trimEnd s' in
      if is_whitespace c && is_empty t then EmptyString else String c t
  end.

(** [String.prototype.trim] *)
Definition trim (s : string) : string := trimEnd (trimStart s).

(** [String.prototype.includes] *)
Fixpoint includes (s sub : string) : bool :=
  String.prefix sub s ||
  match s with
  | EmptyString => false
  | String _ s' => includes s' sub
  end.

(** [ToBoolean] on a string: only the empty string is falsy. *)
Definition string_truthy (s : string) : bool := negb (is_empty s).

(** [String(n)] for a non-negative integer. *)
Definition nat_to_string (n : N) : string :=
  NilZero.string_of_uint (N.to_uint n).

End Js.

(** ** Decoded JSON values

    What [response.json()] resolves to.  A number is an IEEE double; the
    component only ever tests one for being falsy and lets
    [JSON.stringify] print it, so both are kept abstract. *)

Class JsNumber (num : Type) := {
  (** [ToBoolean] gives [false]: the number is [0] or [-0] *)
  number_is_zero : num → bool;
  (** [Number::toString] *)
  number_to_string : num → string
}.

(** The integer-valued numbers (below [10^21] in size, where JavaScript
    still prints plain digits). *)
Definition Z_to_string (z : Z) : string :=
  match z with
  | Z0 => "0"
  | Zpos p => Js.nat_to_string (Npos p)
  | Zneg p => "-" +:+ Js.nat_to_string (Npos p)
  end.

#[global] Instance Z_JsNumber : JsNumber Z := {
  number_is_zero z := Z.eqb z 0;
  number_to_string := Z_to_string
}.

Inductive json (num : Type) : Type :=
| JNull
| JBool (b : bool)
| JNumber (n : num)
| JString (s : string)
| JArray (items : list (json num))
(** own properties, in the order [JSON.stringify] enumerates them *)
| JObject (props : list (string * json num)).

Arguments JNull {num}.
Arguments JBool {num} b.
Arguments JNumber {num} n.
Arguments JString {num} s.
Arguments JArray {num} items.
Arguments JObject {num} props.

(** ** Exceptions *)

(** A thrown value: an instance of [Error] with its [message], or
    anything else. *)
Inductive thrown : Type :=
| ErrorObject (message : string)
| NotAnError.

Inductive result (A : Type) : Type :=
| Ok (a : A)
| Throw (e : thrown).

Arguments Ok {A} a.
Arguments Throw {A} e.

#[global] Instance result_ret : MRet result := @Ok.

#[global] Instance result_bind : MBind result := λ A B k r,
  match r with
  | Ok a => k a
  | Throw e => Throw e
  end.

(** [try { body } catch (e) { handler }] *)
Definition try_catch {A : Type} (body : result A) (handler : thrown → A) : A :=
  match body with
  | Ok a => a
  | Throw e => handler e
  end.

(** ** The JavaScript operations the component applies to a reply *)

Section Json.
Context {num : Type} `{JsNumber num}.

(** [typeof data] *)
Definition typeof (data : json num) : string :=
  match data with
  | JNull => "object"
  | JBool _ => "boolean"
  | JNumber _ => "number"
  | JString _ => "string"
  | JArray _ => "object"
  | JObject _ => "object"
  end.

(** [ToBoolean]: [null], [false], zero and the empty string are falsy,
    every array and every object is truthy. *)
Definition truthy (v : json num) : bool :=
  match v with
  | JNull => false
  | JBool b => b
  | JNumber n => negb (number_is_zero n)
  | JString s => Js.string_truthy s
  | JArray _ => true
  | JObject _ => true
  end.

Fixpoint own_property (props : list (string * json num)) (name : string)
  : option (json num) :=
  match props with
  | [] => None
  | (k, v) :: rest => if String.eqb k name then Some v else own_property rest name
  end.

(** The [TypeError] of V8 for a property read on [null]. *)
Definition null_read_message (name : string) : string :=
  "Cannot read properties of null (reading '" +:+ name +:+ "')".

(** [data.name] for a name that no built-in prototype defines ([response],
    [message] and [content] are such names): [None] is [undefined]; on
    [null] the read throws. *)
Definition get_field (data : json num) (name : string)
  : result (option (json num)) :=
  match data with
  | JNull => Throw (ErrorObject (null_read_message name))
  | JObject props => Ok (own_property props name)
  | _ => Ok None
  end.

(** What [if (v) x = v] assigns: the value when it is defined and truthy. *)
Definition if_truthy (v : option (json num)) : option (json num) :=
  match v with
  | Some j => if truthy j then Some j else None
  | None => None
  end.

(** *** [JSON.stringify] on a decoded value *)

Definition dquote : string := String (Ascii.ascii_of_N 34) EmptyString.
Definition backslash : string := String (Ascii.ascii_of_N 92) EmptyString.

Definition hex_digit (n : N) : string :=
  String (Ascii.ascii_of_N (if N.ltb n 10 then 48 + n else 87 + n)%N) EmptyString.

(** One code unit inside a JSON string literal ([QuoteJSONString]). *)
Definition quote_char (c : ascii) : string :=
  let n := Ascii.N_of_ascii c in
  if N.eqb n 8 then backslash +:+ "b"
  else if N.eqb n 9 then backslash +:+ "t"
  else if N.eqb n 10 then backslash +:+ "n"
  else if N.eqb n 12 then backslash +:+ "f"
  else if N.eqb n 13 then backslash +:+ "r"
  else if N.eqb n 34 then backslash +:+ dquote
  else if N.eqb n 92 then backslash +:+ backslash
  else if N.ltb n 32 then
    backslash +:+ "u00" +:+ hex_digit (n / 16)%N +:+ hex_digit (n mod 16)%N
  else String c EmptyString.

Fixpoint quote_chars (s : string) : string :=
  match s with
  | EmptyString => EmptyString
  | String c s' => quote_char c +:+ quote_chars s'
  end.

Definition quote (s : string) : string := dquote +:+ quote_chars s +:+ dquote.

Fixpoint join_comma (parts : list string) : string :=
  match parts with
  | [] => ""
  | [p] => p
  | p :: rest => p +:+ "," +:+ join_comma rest
  end.

Fixpoint stringify (j : json num) : string :=
  match j with
  | JNull => "null"
  | JBool b => if b then "true" else "false"
  | JNumber n => number_to_string n
  | JString s => quote s
  | JArray items => "[" +:+ join_comma (List.map stringify items) +:+ "]"
  | JObject props =>
      "{" +:+ join_comma
                (List.map (λ kv, quote (fst kv) +:+ ":" +:+ stringify (snd kv)) props)
          +:+ "}"
  end.

End Json.

(** ** The data of the component *)

Inductive Sender : Type := user | agent.

(** [interface Message].  [text] is declared a string, but the reply branch
    stores whatever value the reply carried, so it is a JSON value here;
    [timestamp] is the reading of the clock in milliseconds; [isError] is
    optional. *)
Record Message (num : Type) : Type := {
  id : nat;
  text : json num;
  sender : Sender;
  timestamp : Z;
  isError : option bool
}.

Arguments id {num} _.
Arguments text {num} _.
Arguments sender {num} _.
Arguments timestamp {num} _.
Arguments isError {num} _.

(** The arguments of one call of [fetch]. *)
Record Request : Type := {
  url : string;
  method : string;
  headers : list (string * string);
  body : string
}.

(** What [fetch] resolved to: the status line and what [response.json()]
    will settle to (a decoded value, or the exception of a malformed
    body). *)
Record Response (num : Type) : Type := {
  status : N;
  json_body : result (json num)
}.

Arguments status {num} _.
Arguments json_body {num} _.

(** [response.ok] *)
Definition ok {num : Type} (response : Response num) : bool :=
  N.leb 200 (status response) && N.leb (status response) 299.

(** The React state of the component together with what it reaches outside
    itself.  [documentDark]: the document element carries the class
    [dark].  [fetched]: the calls of [fetch] so far, oldest first.
    [suspended]: a call of [sendMessage] waits at its [await], holding the
    value [messages.length] had when it was called. *)
Record World (num : Type) : Type := {
  messages : list (Message num);
  inputMessage : string;
  isLoading : bool;
  isDarkMode : bool;
  localStorage : gmap string string;
  documentDark : bool;
  fetched : list Request;
  suspended : option nat
}.

Arguments messages {num} _.
Arguments inputMessage {num} _.
Arguments isLoading {num} _.
Arguments isDarkMode {num} _.
Arguments localStorage {num} _.
Arguments documentDark {num} _.
Arguments fetched {num} _.
Arguments suspended {num} _.

Section Setters.
Context {num : Type}.

Definition setMessages (f : list (Message num) → list (Message num))
  (w : World num) : World num :=
  {| messages := f (messages w); inputMessage := inputMessage w;
     isLoading := isLoading w; isDarkMode := isDarkMode w;
     localStorage := localStorage w; documentDark := documentDark w;
     fetched := fetched w; suspended := suspended w |}.

Definition setInputMessage (value : string) (w : World num) : World num :=
  {| messages := messages w; inputMessage := value;
     isLoading := isLoading w; isDarkMode := isDarkMode w;
     localStorage := localStorage w; documentDark := documentDark w;
     fetched := fetched w; suspended := suspended w |}.

Definition setIsLoading (b : bool) (w : World num) : World num :=
  {| messages := messages w; inputMessage := inputMessage w;
     isLoading := b; isDarkMode := isDarkMode w;
     localStorage := localStorage w; documentDark := documentDark w;
     fetched := fetched w; suspended := suspended w |}.

Definition setIsDarkMode (b : bool) (w : World num) : World num :=
  {| messages := messages w; inputMessage := inputMessage w;
     isLoading := isLoading w; isDarkMode := b;
     localStorage := localStorage w; documentDark := documentDark w;
     fetched := fetched w; suspended := suspended w |}.

(** [localStorage.setItem(key, value)] *)
Definition setItem (key value : string) (w : World num) : World num :=
  {| messages := messages w; inputMessage := inputMessage w;
     isLoading := isLoading w; isDarkMode := isDarkMode w;
     localStorage := <[key := value]> (localStorage w);
     documentDark := documentDark w;
     fetched := fetched w; suspended := suspended w |}.

(** [document.documentElement.classList.add('dark')] for [true],
    [.remove('dark')] for [false] *)
Definition classList_dark (present : bool) (w : World num) : World num :=
  {| messages := messages w; inputMessage := inputMessage w;
     isLoading := isLoading w; isDarkMode := isDarkMode w;
     localStorage := localStorage w; documentDark := present;
     fetched := fetched w; suspended := suspended w |}.

(** [fetch(url, init)]: the call is recorded; its result comes later. *)
Definition fetch (request : Request) (w : World num) : World num :=
  {| messages := messages w; inputMessage := inputMessage w;
     isLoading := isLoading w; isDarkMode := isDarkMode w;
     localStorage := localStorage w; documentDark := documentDark w;
     fetched := fetched w ++ [request]; suspended := suspended w |}.

Definition set_suspended (k : option nat) (w : World num) : World num :=
  {| messages := messages w; inputMessage := inputMessage w;
     isLoading := isLoading w; isDarkMode := isDarkMode w;
     localStorage := localStorage w; documentDark := documentDark w;
     fetched := fetched w; suspended := k |}.

End Setters.

(** ** The component *)

Section ChatInterface.
Context {num : Type} `{JsNumber num}.

(** [const fastapi = process.env.NEXT_PUBLIC_FASTAPI]: fixed for the whole
    session; [None] when the variable is not set. *)
Variable fastapi : option string.

(** The endpoint when [fastapi] is truthy; [None] stands for [!fastapi],
    which holds for an unset variable and for an empty one. *)
Definition endpoint : option string :=
  match fastapi with
  | Some u => if Js.string_truthy u then Some u else None
  | None => None
  end.

Definition greeting : string :=
  "Hello! I'm your AI agent. You can ask me anything, including checking weather in different cities. Try typing 'Check weather in Karachi' to see me in action!".

Definition not_configured_text : string :=
  "FASTAPI environment variable is not configured. Please set NEXT_PUBLIC_FASTAPI in your environment variables.".

Definition no_response_text : string :=
  "I received your message but couldn't generate a proper response.".

Definition cors_text : string :=
  "Unable to connect to the AI agent. This might be a CORS issue - the API needs to allow requests from this origin.".

Definition internal_error_text : string :=
  "The AI agent encountered an internal error. Please try again.".

Definition not_found_text : string :=
  "API endpoint not found. Please check the URL.".

Definition unknown_error_text : string := "An unknown error occurred.".

(** *** The theme *)

(** The effect on [isDarkMode]. *)
Definition applyDarkMode (w : World num) : World num :=
  if isDarkMode w
  then setItem "theme" "dark" (classList_dark true w)
  else setItem "theme" "light" (classList_dark false w).

(** The value the mount effect passes to [setIsDarkMode]:
    [savedTheme === 'dark' || (!savedTheme && prefersDark)]. *)
Definition initialDarkMode (storage : gmap string string) (prefersDark : bool)
  : bool :=
  let savedTheme := storage !! "theme" in
  bool_decide (savedTheme = Some "dark")
  || (negb (from_option Js.string_truthy false savedTheme) && prefersDark).

(** [toggleDarkMode], and the effect above, which runs after it because
    the flag has changed. *)
Definition toggleDarkMode (w : World num) : World num :=
  applyDarkMode (setIsDarkMode (negb (isDarkMode w)) w).

(** The state of the first render, before any effect has run. *)
Definition first_render (storage : gmap string string) (now : Z) : World num :=
  {| messages := [ {| id := 1; text := JString greeting; sender := agent;
                     timestamp := now; isError := None |} ];
     inputMessage := "";
     isLoading := false;
     isDarkMode := false;
     localStorage := storage;
     documentDark := false;
     fetched := [];
     suspended := None |}.

(** Mounting: the two effects run in the order they are declared, both on
    the first render (so the second one sees [isDarkMode = false]); when the
    first one changed the flag, the component renders again and the second
    effect runs once more. *)
Definition mount (storage : gmap string string) (prefersDark : bool) (now : Z)
  : World num :=
  let w0 := first_render storage now in
  let dark := initialDarkMode (localStorage w0) prefersDark in
  let w1 := applyDarkMode w0 in
  if dark then applyDarkMode (setIsDarkMode true w1) else w1.

(** *** The reply *)

(** The chain of tests on the decoded body that fills [responseText]. *)
Definition responseText (data : json num) : result (json num) :=
  if String.eqb (typeof data) "string" then Ok data
  else
    response ← get_field data "response";
    match if_truthy response with
    | Some v => Ok v
    | None =>
        message ← get_field data "message";
        match if_truthy message with
        | Some v => Ok v
        | None =>
            content ← (if String.eqb (typeof data) "object"
                       then get_field data "content" else Ok None);
            match if_truthy content with
            | Some v => Ok v
            | None => Ok (JString (stringify data))
            end
        end
    end.

(** [responseText || '...'] *)
Definition or_no_response (v : json num) : json num :=
  if truthy v then v else JString no_response_text.

(** [new Error(`HTTP error! status: ${response.status}`)] *)
Definition http_error (s : N) : thrown :=
  ErrorObject ("HTTP error! status: " +:+ Js.nat_to_string s).

(** The body of the [try] block from the [await] on: it yields
    [agentMessage] or throws.  [len] is [messages.length] as the call of
    [sendMessage] saw it. *)
Definition agentMessage (len : nat) (now : Z) (outcome : result (Response num))
  : result (Message num) :=
  response ← outcome;
  _ ← (if negb (ok response) then Throw (http_error (status response))
       else Ok tt);
  data ← json_body response;
  responseText ← responseText data;
  Ok {| id := len + 2; text := or_no_response responseText; sender := agent;
        timestamp := now; isError := None |}.

(** The text the [catch] block picks. *)
Definition errorText (error : thrown) : string :=
  match error with
  | ErrorObject message =>
      if Js.includes message "Failed to fetch" then cors_text
      else if Js.includes message "500" then internal_error_text
      else if Js.includes message "404" then not_found_text
      else "Sorry, I encountered an error: " +:+ message
  | NotAnError => unknown_error_text
  end.

Definition errorMessage (len : nat) (now : Z) (error : thrown) : Message num :=
  {| id := len + 2; text := JString (errorText error); sender := agent;
     timestamp := now; isError := Some true |}.

(** *** [sendMessage] *)

Definition userMessage (w : World num) (now : Z) : Message num :=
  {| id := length (messages w) + 1; text := JString (inputMessage w);
     sender := user; timestamp := now; isError := None |}.

Definition request (target : string) (w : World num) : Request :=
  {| url := target;
     method := "POST";
     headers := [("Content-Type", "application/json")];
     body := stringify (JObject [("message", @JString num (inputMessage w))]) |}.

(** [!inputMessage.trim() || isLoading] *)
Definition rejected (w : World num) : bool :=
  negb (Js.string_truthy (Js.trim (inputMessage w))) || isLoading w.

(** [sendMessage] up to its first [await]. *)
Definition sendMessage (now : Z) (w : World num) : World num :=
  if rejected w then w
  else
    match endpoint with
    | None =>
        setMessages
          (λ prev, prev ++ [ {| id := length (messages w) + 2;
                                text := JString not_configured_text;
                                sender := agent; timestamp := now;
                                isError := Some true |} ]) w
    | Some target =>
        let w1 := setMessages (λ prev, prev ++ [userMessage w now]) w in
        let w2 := setInputMessage "" w1 in
        let w3 := setIsLoading true w2 in
        let w4 := fetch (request target w) w3 in
        set_suspended (Some (length (messages w))) w4
    end.

(** [sendMessage] from its first [await] to its end, run when the request
    has settled with [outcome]: the rest of [try], [catch] and [finally].
    The two [await]s are taken together, since nothing in between reads the
    state. *)
Definition sendMessage_resume (outcome : result (Response num)) (now : Z)
  (w : World num) : World num :=
  match suspended w with
  | None => w
  | Some len =>
      let m := try_catch (agentMessage len now outcome) (errorMessage len now) in
      let w1 := setMessages (λ prev, prev ++ [m]) w in
      let w2 := setIsLoading false w1 in
      set_suspended None w2
  end.

Definition handleExampleClick (w : World num) : World num :=
  setInputMessage "Check weather in Karachi" w.

(** *** Sessions *)

(** What can happen to a mounted component: the user edits the draft,
    presses the example button, submits, or toggles the theme; the request
    in flight settles. *)
Inductive Event : Type :=
| Change (value : string)
| ExampleClick
| Submit (now : Z)
| Settled (outcome : result (Response num)) (now : Z)
| ToggleDarkMode.

Definition step (w : World num) (e : Event) : World num :=
  match e with
  | Change value => setInputMessage value w
  | ExampleClick => handleExampleClick w
  | Submit now => sendMessage now w
  | Settled outcome now => sendMessage_resume outcome now w
  | ToggleDarkMode => toggleDarkMode w
  end.

Definition run (w : World num) (events : list Event) : World num :=
  foldl step w events.

End ChatInterface.

(** ** Notions the properties are stated with *)

Section Observers.
Context {num : Type} `{JsNumber num}.

(** The normalizer as the specification words it: a field that is present
    decides, whatever its value. *)
Definition normalize_as_specified (body : json num) : json num :=
  match body with
  | JString _ => body
  | JObject props =>
      match own_property props "response" with
      | Some v => v
      | None =>
          match own_property props "message" with
          | Some v => v
          | None =>
              match own_property props "content" with
              | Some v => v
              | None => JString (stringify body)
              end
          end
      end
  | _ => JString (stringify body)
  end.

(** The field of an object; nothing else has fields. *)
Definition field (body : json num) (name : string) : option (json num) :=
  match body with
  | JObject props => own_property props name
  | _ => None
  end.

Fixpoint whitespace_only (s : string) : bool :=
  match s with
  | EmptyString => true
  | String c s' => Js.is_whitespace c && whitespace_only s'
  end.

(** Reading a JSON string literal back, from behind its opening quote up
    to the closing one: the text it denotes and what follows it. *)
Definition hex_value (c : ascii) : option N :=
  let n := Ascii.N_of_ascii c in
  if N.leb 48 n && N.leb n 57 then Some (n - 48)%N
  else if N.leb 97 n && N.leb n 102 then Some (n - 87)%N
  else None.

Definition unescape (c : ascii) : option ascii :=
  let n := Ascii.N_of_ascii c in
  if N.eqb n 98 then Some (Ascii.ascii_of_N 8)
  else if N.eqb n 116 then Some (Ascii.ascii_of_N 9)
  else if N.eqb n 110 then Some (Ascii.ascii_of_N 10)
  else if N.eqb n 102 then Some (Ascii.ascii_of_N 12)
  else if N.eqb n 114 then Some (Ascii.ascii_of_N 13)
  else if N.eqb n 34 || N.eqb n 92 then Some c
  else None.

Fixpoint read_literal (s : string) : option (string * string) :=
  match s with
  | EmptyString => None
  | String c rest =>
      let n := Ascii.N_of_ascii c in
      if N.eqb n 34 then Some (EmptyString, rest)
      else if N.eqb n 92 then
        match rest with
        | String e rest1 =>
            if N.eqb (Ascii.N_of_ascii e) 117 then
              match rest1 with
              | String _ (String _ (String h (String l rest2))) =>
                  match hex_value h, hex_value l, read_literal rest2 with
                  | Some a, Some b, Some (t, k) =>
                      Some (String (Ascii.ascii_of_N (16 * a + b)) t, k)
                  | _, _, _ => None
                  end
              | _ => None
              end
            else
              match unescape e, read_literal rest1 with
              | Some d, Some (t, k) => Some (String d t, k)
              | _, _ => None
              end
        | EmptyString => None
        end
      else
        match read_literal rest with
        | Some (t, k) => Some (String c t, k)
        | None => None
        end
  end.

Fixpoint strip_prefix (p s : string) : option string :=
  match p, s with
  | EmptyString, _ => Some s
  | String a p', String b s' =>
      if Ascii.eqb a b then strip_prefix p' s' else None
  | String _ _, EmptyString => None
  end.

(** The text of the [message] field of a request body of the shape
    [{"message":"..."}]. *)
Definition message_of_body (b : string) : option string :=
  match strip_prefix ("{" +:+ dquote +:+ "message" +:+ dquote +:+ ":" +:+ dquote) b with
  | Some s =>
      match read_literal s with
      | Some (t, k) => if String.eqb k "}" then Some t else None
      | None => None
      end
  | None => None
  end.

(** A session: the component is mounted, then events happen. *)
Definition session (fastapi : option string) (storage : gmap string string)
  (prefersDark : bool) (now : Z) (events : list Event) : World num :=
  run fastapi (mount storage prefersDark now) events.

Definition ids_upto (bound : nat) (ms : list (Message num)) : Prop :=
  Forall (λ m, id m ≤ bound) ms.

(** What every world of a session satisfies: the ids grow along the store;
    the loading flag is up exactly while a call of [sendMessage] waits for
    its request; and the ids stay within a bound that the next id exceeds
    (with an endpoint the ids are [1 .. length]; without one the messages
    about the configuration take [length + 2], one ahead of the count). *)
Definition session_invariant (fastapi : option string) (w : World num) : Prop :=
  StronglySorted lt (id <$> messages w)
  ∧ (isLoading w = true ↔ is_Some (suspended w))
  ∧ match suspended w with
    | Some len =>
        is_Some (endpoint fastapi)
        ∧ length (messages w) = len + 1
        ∧ ids_upto (len + 1) (messages w)
    | None =>
        match endpoint fastapi with
        | Some _ => ids_upto (length (messages w)) (messages w)
        | None => ids_upto (length (messages w) + 1) (messages w)
        end
    end.

End Observers.

(** ** A small session to evaluate on

    Numbers are integers here; the storage starts empty and the
    environment prefers the light theme. *)

Definition example_endpoint : option string := Some "https://agent.example/chat".

(** The mounted component with [draft] typed into the entry field. *)
Definition typed (draft : string) : World Z :=
  setInputMessage draft (mount ∅ false 0).

(** A reply with the given status whose body decodes to [data]. *)
Definition replied (s : N) (data : json Z) : result (Response Z) :=
  Ok {| status := s; json_body := Ok data |}.

(** ** The rest of the file: what is rendered, and the first version *)

Section Rendering.
Context {num : Type} `{JsNumber num}.

(** The classes of the bubble of a message: the chain of conditionals in
    the [className] of the second component. *)
Definition bubbleClass (dark : bool) (message : Message num) : string :=
  match sender message with
  | user => "bg-gradient-to-r from-blue-500 to-blue-600 text-white"
  | agent =>
      if default false (isError message)
      then if dark
           then "bg-red-900/50 text-red-200 border border-red-700"
           else "bg-red-50 text-red-800 border border-red-200"
      else if dark
           then "bg-slate-700 text-slate-200 shadow-sm border border-slate-600"
           else "bg-white text-slate-800 shadow-sm border border-slate-200"
  end.

(** The bubble is one of the two red ones. *)
Definition red_bubble (class : string) : bool :=
  String.eqb class "bg-red-900/50 text-red-200 border border-red-700"
  || String.eqb class "bg-red-50 text-red-800 border border-red-200".

(** [disabled] of the Send button. *)
Definition sendDisabled (w : World num) : bool :=
  negb (Js.string_truthy (Js.trim (inputMessage w))) || isLoading w.

(** The text of the reply in the first version of the component:
    [data.response || data.message || '...']. *)
Definition first_version_text (data : json num) : result (json num) :=
  response ← get_field data "response";
  match if_truthy response with
  | Some v => Ok v
  | None =>
      message ← get_field data "message";
      match if_truthy message with
      | Some v => Ok v
      | None => Ok (JString no_response_text)
      end
  end.

(** The message is one the user sent. *)
Definition from_user (message : Message num) : bool :=
  match sender message with
  | user => true
  | agent => false
  end.

(** The reading of the clock an event brings along. *)
Definition clock (e : @Event num) : option Z :=
  match e with
  | Submit now => Some now
  | Settled _ now => Some now
  | _ => None
  end.

(** The senders of a store that holds the greeting and [n] exchanges. *)
Fixpoint exchanges (n : nat) : list Sender :=
  match n with
  | 0 => []
  | S n' => user :: agent :: exchanges n'
  end.

(** The request failed: [fetch] rejected, the status is outside the 200s,
    the body did not decode, or it decoded to [null]. *)
Definition failed (outcome : result (Response num)) : bool :=
  match outcome with
  | Throw _ => true
  | Ok r =>
      negb (ok r)
      || match json_body r with
         | Throw _ => true
         | Ok JNull => true
         | Ok _ => false
         end
  end.

End Rendering.

(** * Properties *)

#[local] Arguments String.append : simpl nomatch.

(** ** Strings *)

Lemma append_assoc (a b c : string) : (a +:+ b) +:+ c = a +:+ (b +:+ c).
Proof. induction a as [|x a IH]; simpl; [done|by rewrite IH]. Qed.

Lemma is_empty_true (s : string) : Js.is_empty s = true ↔ s = "".
Proof. destruct s; simpl; split; done. Qed.

Lemma trimEnd_empty (s : string) :
  Js.trimEnd s = "" ↔ whitespace_only s = true.
Proof.
  induction s as [|c s IH]; simpl; [done|].
  destruct (Js.is_whitespace c); simpl; [|done].
  destruct (Js.trimEnd s) eqn:E; simpl.
  - split; [intros _; by apply IH|done].
  - split; [done|]. intros Hw. apply IH in Hw. done.
Qed.

Lemma whitespace_only_trimStart (s : string) :
  whitespace_only (Js.trimStart s) = whitespace_only s.
Proof.
  induction s as [|c s IH]; simpl; [done|].
  destruct (Js.is_whitespace c) eqn:E; simpl; [done|by rewrite E].
Qed.

(** Trimming leaves nothing exactly when every character is white space. *)
Lemma trim_empty (s : string) : Js.trim s = "" ↔ whitespace_only s = true.
Proof.
  unfold Js.trim. rewrite trimEnd_empty. by rewrite whitespace_only_trimStart.
Qed.

(** A quoted string reads back as the text it was made from. *)
Lemma read_literal_quote_chars (s rest : string) :
  read_literal (quote_chars s +:+ dquote +:+ rest) = Some (s, rest).
Proof.
  induction s as [|c s IH]; [reflexivity|].
  cbn [quote_chars]. rewrite append_assoc.
  set (k := quote_chars s +:+ dquote +:+ rest) in *. clearbody k.
  destruct c as [[] [] [] [] [] [] [] []];
    match goal with
    | |- context [quote_char ?c] =>
        let v := eval vm_compute in (quote_char c) in
        change (quote_char c) with v
    end; simpl; rewrite IH; reflexivity.
Qed.

Lemma message_of_body_stringify {num : Type} `{JsNumber num} (s : string) :
  message_of_body (stringify (JObject [("message", @JString num s)])) = Some s.
Proof.
  unfold message_of_body. simpl.
  by rewrite append_assoc, read_literal_quote_chars.
Qed.

Section Properties.
Context {num : Type} `{JsNumber num}.
Variable fastapi : option string.

Implicit Types (w : World num) (data v : json num) (now : Z).

(** ** The reply *)

Lemma responseText_string (s : string) :
  responseText (@JString num s) = Ok (JString s).
Proof. reflexivity. Qed.

Lemma responseText_null :
  responseText (@JNull num) = Throw (ErrorObject (null_read_message "response")).
Proof. reflexivity. Qed.

Lemma if_truthy_Some (o : option (json num)) v :
  if_truthy o = Some v → o = Some v ∧ truthy v = true.
Proof.
  destruct o as [j|]; simpl; [|done].
  destruct (truthy j) eqn:E; [|done]. intros [= <-]. done.
Qed.

(** The replies the endpoint is expected to give, and one it is not. *)
Example responseText_expected_shapes :
  responseText (@JString Z "hello") = Ok (JString "hello")
  ∧ responseText (JObject [("response", @JString Z "x")]) = Ok (JString "x")
  ∧ responseText (JObject [("message", @JString Z "y")]) = Ok (JString "y")
  ∧ responseText (JObject [("content", @JString Z "z")]) = Ok (JString "z")
  ∧ responseText (JObject [("other", JNumber 1%Z)])
    = Ok (JString ("{" +:+ dquote +:+ "other" +:+ dquote +:+ ":1}")).
Proof. repeat split. Qed.

Lemma responseText_object (props : list (string * json num)) :
  let pick name := if_truthy (own_property props name) in
  responseText (JObject props) =
  Ok match pick "response", pick "message", pick "content" with
     | Some v, _, _ => v
     | None, Some v, _ => v
     | None, None, Some v => v
     | None, None, None => JString (stringify (JObject props))
     end.
Proof.
  unfold responseText. simpl.
  destruct (if_truthy (own_property props "response")); [done|].
  destruct (if_truthy (own_property props "message")); [done|].
  destruct (if_truthy (own_property props "content")); done.
Qed.

(** C1, as the code has it: a string body is used as it is; in any other
    body except [null], the first of the fields [response], [message],
    [content] whose value is truthy is used (a field that is absent, or
    holds [null], [false], zero or the empty string, is passed over); when
    there is none, the body is serialized with [JSON.stringify]. *)
Theorem responseText_first_truthy_field data :
  data ≠ JNull →
  (∀ s, data = JString s → responseText data = Ok data) ∧
  ((∀ s, data ≠ JString s) →
   let pick name := if_truthy (field data name) in
   responseText data =
   Ok match pick "response", pick "message", pick "content" with
      | Some v, _, _ => v
      | None, Some v, _ => v
      | None, None, Some v => v
      | None, None, None => JString (stringify data)
      end).
Proof.
  intros Hnull. split.
  - intros s ->. reflexivity.
  - intros Hstr. destruct data as [|b|n|s|items|props]; try done.
    + by destruct (Hstr s).
    + apply responseText_object.
Qed.

(** ** Submitting *)

Lemma rejected_false w :
  rejected w = false ↔ Js.trim (inputMessage w) ≠ "" ∧ isLoading w = false.
Proof.
  unfold rejected, Js.string_truthy. rewrite negb_involutive.
  destruct (Js.trim (inputMessage w)), (isLoading w); simpl;
    intuition congruence.
Qed.

Lemma rejected_true w :
  rejected w = true ↔ Js.trim (inputMessage w) = "" ∨ isLoading w = true.
Proof.
  unfold rejected, Js.string_truthy. rewrite negb_involutive.
  destruct (Js.trim (inputMessage w)), (isLoading w); simpl;
    intuition congruence.
Qed.

(** C4: a draft that is empty once trimmed (that is, one made of white
    space only), or a request still pending, makes [sendMessage] return at
    once: the world after it is the world before it, so the messages, the
    loading flag, the draft and the list of calls of [fetch] are the same. *)
Theorem sendMessage_rejected_is_noop w now :
  Js.trim (inputMessage w) = "" ∨ whitespace_only (inputMessage w) = true
  ∨ isLoading w = true →
  sendMessage fastapi now w = w.
Proof.
  intros Hrej. unfold sendMessage.
  assert (rejected w = true) as ->; [|done].
  apply rejected_true.
  destruct Hrej as [Ht|[Hw|Hl]]; [by left|left; by apply trim_empty|by right].
Qed.

(** C6: with no endpoint configured, a submission that is not rejected
    appends the one fixed message about the configuration, marked as an
    error, and calls [fetch] not at all; nothing is left pending. *)
Theorem sendMessage_without_endpoint w now :
  rejected w = false →
  fastapi = None ∨ fastapi = Some "" →
  let w' := sendMessage fastapi now w in
  messages w' =
    messages w ++ [ {| id := length (messages w) + 2;
                       text := JString not_configured_text;
                       sender := agent; timestamp := now;
                       isError := Some true |} ]
  ∧ fetched w' = fetched w
  ∧ isLoading w' = isLoading w
  ∧ suspended w' = suspended w
  ∧ inputMessage w' = inputMessage w.
Proof.
  intros Hacc Hconf. unfold sendMessage. rewrite Hacc.
  assert (endpoint fastapi = None) as -> by (by destruct Hconf as [-> | ->]).
  done.
Qed.

(** C10: when a submission goes out, the user message carries the draft as
    it was typed, and so does the [message] field of the request body; the
    trimmed text only decided that the submission was not rejected.  The
    draft is empty afterwards. *)
Theorem sendMessage_sends_raw_text w now (target : string) :
  rejected w = false →
  endpoint fastapi = Some target →
  let w' := sendMessage fastapi now w in
  (∃ m, messages w' = messages w ++ [m]
        ∧ sender m = user ∧ text m = JString (inputMessage w))
  ∧ (∃ r, fetched w' = fetched w ++ [r]
          ∧ url r = target ∧ method r = "POST"
          ∧ body r = stringify (JObject [("message", @JString num (inputMessage w))])
          ∧ message_of_body (body r) = Some (inputMessage w))
  ∧ inputMessage w' = "".
Proof.
  intros Hacc Hconf. unfold sendMessage. rewrite Hacc, Hconf. simpl.
  split; [|split; [|done]].
  - by eexists.
  - eexists. repeat split. apply (message_of_body_stringify (num := num)).
Qed.

Lemma id_settled (len : nat) now (outcome : result (Response num)) :
  id (try_catch (agentMessage len now outcome) (errorMessage len now)) = len + 2
  ∧ sender (try_catch (agentMessage len now outcome) (errorMessage len now)) = agent.
Proof.
  unfold agentMessage.
  destruct outcome as [r|e]; simpl; [|done].
  destruct (ok r); simpl; [|done].
  destruct (json_body r) as [data|e]; simpl; [|done].
  destruct (responseText data); done.
Qed.

(** C3, as the code has it: a submission that is not rejected appends two
    messages when an endpoint is configured (the user message at once, one
    message of the agent when the request has settled, whatever the
    outcome), and one message, the one about the configuration, when no
    endpoint is configured. *)
Theorem sendMessage_appends w now (outcome : result (Response num)) (later : Z) :
  rejected w = false →
  let w1 := sendMessage fastapi now w in
  let w2 := sendMessage_resume outcome later w1 in
  match endpoint fastapi with
  | Some _ =>
      messages w1 = messages w ++ [userMessage w now]
      ∧ (∃ m, messages w2 = messages w ++ [userMessage w now; m]
              ∧ sender m = agent)
      ∧ length (messages w2) = length (messages w) + 2
  | None =>
      (∃ m, messages w1 = messages w ++ [m]
            ∧ sender m = agent ∧ isError m = Some true)
      ∧ length (messages w1) = length (messages w) + 1
      ∧ (suspended w = None → w2 = w1)
  end.
Proof.
  intros Hacc. unfold sendMessage. rewrite Hacc.
  destruct (endpoint fastapi) as [target|]; simpl.
  - split; [done|]. unfold sendMessage_resume; simpl.
    rewrite !length_app; simpl. split; [|lia].
    eexists. rewrite <- app_assoc. split; [reflexivity|].
    apply id_settled.
  - rewrite length_app; simpl. split; [by eexists|]. split; [done|].
    intros Hs. unfold sendMessage_resume; simpl. by rewrite Hs.
Qed.

(** ** The texts of the errors *)

Lemma status_texts_below_1000 :
  forallb (λ n : nat,
     let m := "HTTP error! status: " +:+ Js.nat_to_string (N.of_nat n) in
     negb (Js.includes m "Failed to fetch")
     && Bool.eqb (Js.includes m "500") (N.eqb (N.of_nat n) 500)
     && Bool.eqb (Js.includes m "404") (N.eqb (N.of_nat n) 404))
    (seq 0 1000) = true.
Proof. vm_compute. reflexivity. Qed.

(** A status of at most three digits is told apart by the digits [500] and
    [404] in the message of the error thrown for it. *)
Lemma errorText_http_error (s : N) :
  (s < 1000)%N →
  errorText (http_error s) =
  if N.eqb s 500 then internal_error_text
  else if N.eqb s 404 then not_found_text
  else "Sorry, I encountered an error: HTTP error! status: " +:+ Js.nat_to_string s.
Proof.
  intros Hs.
  pose proof status_texts_below_1000 as Hall.
  rewrite forallb_forall in Hall.
  specialize (Hall (N.to_nat s)).
  rewrite N2Nat.id in Hall. cbv zeta in Hall.
  assert (In (N.to_nat s) (seq 0 1000)) as Hin by (apply in_seq; lia).
  apply Hall in Hin. clear Hall.
  apply andb_prop in Hin as [Hin H404]. apply andb_prop in Hin as [Hf H500].
  apply Bool.eqb_prop in H404, H500. apply negb_true_iff in Hf.
  unfold errorText, http_error. rewrite Hf, H500, H404.
  destruct (N.eqb s 500); [done|]. destruct (N.eqb s 404); done.
Qed.

Lemma sendMessage_resume_messages w (len : nat) (outcome : result (Response num))
  now :
  suspended w = Some len →
  messages (sendMessage_resume outcome now w) =
  messages w ++ [try_catch (agentMessage len now outcome) (errorMessage len now)].
Proof. intros Hs. unfold sendMessage_resume. by rewrite Hs. Qed.

(** C5, as the code has it: whatever is thrown while the request is
    awaited or its reply is read becomes one message of the agent marked as
    an error, and its text is chosen by looking for pieces of text in the
    message of the error, in this order: [Failed to fetch] gives the hint
    at CORS, [500] the internal error, [404] the missing endpoint, anything
    else the general sentence followed by the message of the error; a
    thrown value that is no [Error] gives the unknown error.  A reply whose
    status is not in the 200s throws the error [HTTP error! status: n]; so
    among the statuses of at most three digits, 500 alone gives the
    internal error and 404 alone the missing endpoint. *)
Theorem error_messages_by_substring w (len : nat) now :
  suspended w = Some len →
  (∀ e, messages (sendMessage_resume (Throw e) now w) =
        messages w ++ [errorMessage len now e])
  ∧ (∀ r, ok r = false →
          messages (sendMessage_resume (Ok r) now w) =
          messages w ++ [errorMessage len now (http_error (status r))])
  ∧ (∀ r e, ok r = true → json_body r = Throw e →
            messages (sendMessage_resume (Ok r) now w) =
            messages w ++ [errorMessage len now e])
  ∧ (∀ e, isError (errorMessage (num := num) len now e) = Some true
          ∧ text (errorMessage (num := num) len now e) = JString (errorText e))
  ∧ (∀ m, Js.includes m "Failed to fetch" = true →
          errorText (ErrorObject m) = cors_text)
  ∧ (∀ m, Js.includes m "Failed to fetch" = false →
          Js.includes m "500" = true →
          errorText (ErrorObject m) = internal_error_text)
  ∧ (∀ m, Js.includes m "Failed to fetch" = false →
          Js.includes m "500" = false →
          Js.includes m "404" = true →
          errorText (ErrorObject m) = not_found_text)
  ∧ (∀ m, Js.includes m "Failed to fetch" = false →
          Js.includes m "500" = false →
          Js.includes m "404" = false →
          errorText (ErrorObject m) = "Sorry, I encountered an error: " +:+ m)
  ∧ errorText NotAnError = unknown_error_text
  ∧ (∀ s, (s < 1000)%N →
          errorText (http_error s) =
          if N.eqb s 500 then internal_error_text
          else if N.eqb s 404 then not_found_text
          else "Sorry, I encountered an error: HTTP error! status: "
               +:+ Js.nat_to_string s).
Proof.
  intros Hs. repeat split.
  - intros e. by rewrite (sendMessage_resume_messages w len).
  - intros r Hr. rewrite (sendMessage_resume_messages w len) by done.
    unfold agentMessage. simpl. by rewrite Hr.
  - intros r e Hr He. rewrite (sendMessage_resume_messages w len) by done.
    unfold agentMessage. simpl. by rewrite Hr, He.
  - intros m Hf. simpl. by rewrite Hf.
  - intros m Hf H5. simpl. by rewrite Hf, H5.
  - intros m Hf H5 H4. simpl. by rewrite Hf, H5, H4.
  - intros m Hf H5 H4. simpl. by rewrite Hf, H5, H4.
  - apply errorText_http_error.
Qed.

(** ** Replies that resolve to nothing *)

(** The body [""] is the reply that gets the fixed sentence, unmarked. *)
Lemma reply_empty_string w (len : nat) now (r : Response num) :
  suspended w = Some len → ok r = true → json_body r = Ok (JString "") →
  messages (sendMessage_resume (Ok r) now w) =
  messages w ++ [ {| id := len + 2; text := JString no_response_text;
                     sender := agent; timestamp := now; isError := None |} ].
Proof.
  intros Hs Hr Hb. rewrite (sendMessage_resume_messages w len) by done.
  unfold agentMessage. simpl. by rewrite Hr, Hb.
Qed.

(** The body [null] makes the first property read throw, and the [catch]
    block answers. *)
Lemma reply_null w (len : nat) now (r : Response num) :
  suspended w = Some len → ok r = true → json_body r = Ok JNull →
  messages (sendMessage_resume (Ok r) now w) =
  messages w ++ [errorMessage len now (ErrorObject (null_read_message "response"))].
Proof.
  intros Hs Hr Hb. rewrite (sendMessage_resume_messages w len) by done.
  unfold agentMessage. simpl. by rewrite Hr, Hb.
Qed.

Lemma quote_not_empty (s : string) : quote s ≠ "".
Proof. unfold quote. simpl. done. Qed.

(** When numbers print as something, [""] is the only body for which
    [responseText] is falsy: a field is only taken when truthy, and
    [JSON.stringify] never yields the empty string. *)
Lemma responseText_falsy data v :
  (∀ n : num, number_to_string n ≠ "") →
  responseText data = Ok v → truthy v = false → data = JString "".
Proof.
  intros Hnum Hr Hv.
  destruct data as [|b|n|s|items|props].
  - done.
  - injection Hr as <-. by destruct b.
  - injection Hr as <-. simpl in Hv. unfold Js.string_truthy in Hv.
    apply negb_false_iff, is_empty_true in Hv. by destruct (Hnum n).
  - injection Hr as <-. simpl in Hv. unfold Js.string_truthy in Hv.
    apply negb_false_iff, is_empty_true in Hv. by subst.
  - injection Hr as <-. done.
  - rewrite responseText_object in Hr. cbv zeta in Hr.
    destruct (if_truthy (own_property props "response")) as [a|] eqn:E1.
    { injection Hr as <-. apply if_truthy_Some in E1 as [_ ?]. congruence. }
    destruct (if_truthy (own_property props "message")) as [a|] eqn:E2.
    { injection Hr as <-. apply if_truthy_Some in E2 as [_ ?]. congruence. }
    destruct (if_truthy (own_property props "content")) as [a|] eqn:E3.
    { injection Hr as <-. apply if_truthy_Some in E3 as [_ ?]. congruence. }
    injection Hr as <-. done.
Qed.

(** ** Sessions *)

Lemma run_invariant (P : World num → Prop) :
  (∀ w e, P w → P (step fastapi w e)) →
  ∀ events w, P w → P (run fastapi w events).
Proof.
  intros Hstep events. induction events as [|e events IH]; intros w Hw.
  - done.
  - simpl. apply IH. by apply Hstep.
Qed.

Lemma mount_fields (storage : gmap string string) (prefersDark : bool) now :
  let w := mount (num := num) storage prefersDark now in
  messages w = messages (first_render storage now)
  ∧ isLoading w = false ∧ suspended w = None ∧ fetched w = [].
Proof. unfold mount. cbv zeta. by destruct (initialDarkMode _ _). Qed.

Lemma session_invariant_mount (storage : gmap string string) (prefersDark : bool)
  now :
  session_invariant fastapi (mount (num := num) storage prefersDark now).
Proof.
  destruct (mount_fields storage prefersDark now) as (Hm & Hl & Hs & _).
  unfold session_invariant. rewrite Hm, Hl, Hs. simpl. split; [|split].
  - repeat constructor.
  - split; [done|]. by intros [? ?].
  - destruct (endpoint fastapi); repeat constructor; simpl; lia.
Qed.

Lemma ids_upto_mono (a b : nat) (ms : list (Message num)) :
  a ≤ b → ids_upto a ms → ids_upto b ms.
Proof.
  intros Hab Hupto. eapply Forall_impl; [exact Hupto|].
  intros m Hm. simpl in Hm. lia.
Qed.

Lemma ids_snoc (bound : nat) (ms : list (Message num)) (m : Message num) :
  StronglySorted lt (id <$> ms) → ids_upto bound ms → bound < id m →
  StronglySorted lt (id <$> (ms ++ [m])) ∧ ids_upto (id m) (ms ++ [m]).
Proof.
  intros Hsorted Hupto Hm. split.
  - rewrite fmap_app. apply StronglySorted_app_2; [|done|repeat constructor].
    intros x1 x2 Hx1 Hx2. apply list_elem_of_fmap in Hx1 as (m1 & -> & Hm1).
    apply list_elem_of_singleton in Hx2 as ->.
    unfold ids_upto in Hupto. rewrite Forall_forall in Hupto.
    specialize (Hupto m1 Hm1). simpl in Hupto. lia.
  - apply Forall_app. split.
    + eapply ids_upto_mono; [|done]. lia.
    + by repeat constructor.
Qed.

Lemma session_invariant_step w (e : Event) :
  session_invariant fastapi w → session_invariant fastapi (step fastapi w e).
Proof.
  intros (Hsorted & Hload & Hbound).
  destruct e as [value| |now|outcome now|]; simpl.
  - by split.
  - by split.
  - unfold sendMessage. destruct (rejected w) eqn:Hrej; [by split|].
    apply rejected_false in Hrej as [_ Hl].
    destruct (suspended w) as [len|] eqn:Hs.
    { assert (isLoading w = true) by (apply Hload; by eexists). congruence. }
    destruct (endpoint fastapi) as [target|] eqn:He.
    + destruct (ids_snoc (length (messages w)) (messages w) (userMessage w now))
        as [Hs' Hu']; [done|done|simpl; lia|].
      unfold session_invariant. simpl. rewrite He.
      split; [done|]. split; [split; [by eexists|done]|].
      split; [by eexists|]. split; [rewrite length_app; simpl; lia|].
      done.
    + set (m := {| id := length (messages w) + 2;
                   text := JString not_configured_text;
                   sender := agent; timestamp := now;
                   isError := Some true |} : Message num).
      destruct (ids_snoc (length (messages w) + 1) (messages w) m)
        as [Hs' Hu']; [done|done|simpl; lia|].
      unfold session_invariant. simpl. rewrite Hs, He. fold m.
      split; [done|]. split; [done|].
      rewrite length_app. simpl. eapply ids_upto_mono; [|done]. simpl. lia.
  - unfold sendMessage_resume.
    destruct (suspended w) as [len|] eqn:Hs; [|by split; [|rewrite Hs]].
    destruct Hbound as (Hconf & Hlen & Hupto).
    set (m := try_catch (agentMessage len now outcome) (errorMessage len now)).
    destruct (id_settled len now outcome) as [Hid _]. fold m in Hid.
    destruct (ids_snoc (len + 1) (messages w) m)
      as [Hs' Hu']; [done|done|lia|].
    unfold session_invariant. simpl.
    split; [done|]. split; [split; [done|by intros [? ?]]|].
    destruct Hconf as [target ->]. rewrite length_app. simpl.
    eapply ids_upto_mono; [|done]. lia.
  - unfold toggleDarkMode, applyDarkMode. simpl.
    destruct (negb (isDarkMode w)); by split.
Qed.

Lemma session_invariant_holds (storage : gmap string string) (prefersDark : bool)
  (t0 : Z) (events : list Event) :
  session_invariant fastapi (session (num := num) fastapi storage prefersDark t0 events).
Proof.
  unfold session. apply run_invariant.
  - apply session_invariant_step.
  - apply session_invariant_mount.
Qed.

Lemma StronglySorted_lt_NoDup (l : list nat) : StronglySorted lt l → NoDup l.
Proof.
  induction 1 as [|x l Hl IH Hx]; constructor; [|done].
  intros Hin. rewrite Forall_forall in Hx. specialize (Hx x Hin). lia.
Qed.

(** No handler takes a message away or changes one: a step leaves the
    store as it was or adds to its end. *)
Lemma step_appends w (e : Event) :
  ∃ new, messages (step fastapi w e) = messages w ++ new.
Proof.
  destruct e as [value| |now|outcome now|]; simpl.
  - exists []. by rewrite app_nil_r.
  - exists []. by rewrite app_nil_r.
  - unfold sendMessage. destruct (rejected w).
    + exists []. by rewrite app_nil_r.
    + destruct (endpoint fastapi); simpl; by eexists.
  - unfold sendMessage_resume. destruct (suspended w); simpl.
    + by eexists.
    + exists []. by rewrite app_nil_r.
  - exists []. unfold toggleDarkMode, applyDarkMode. simpl.
    destruct (negb (isDarkMode w)); simpl; by rewrite app_nil_r.
Qed.

(** C8: at every point of a session the ids in the store increase strictly
    from one message to the next, so no two messages share an id; and a
    message that the next event appends, of whatever kind, has an id above
    every id already there. *)
Theorem message_ids_increase (storage : gmap string string) (prefersDark : bool)
  (t0 : Z) (events : list Event) (e : Event) :
  let w := session (num := num) fastapi storage prefersDark t0 events in
  StronglySorted lt (id <$> messages w)
  ∧ NoDup (id <$> messages w)
  ∧ ∃ new, messages (step fastapi w e) = messages w ++ new
           ∧ ∀ m m', m ∈ messages w → m' ∈ new → id m < id m'.
Proof.
  intros w.
  pose proof (session_invariant_holds storage prefersDark t0 events) as Hinv.
  fold w in Hinv.
  pose proof (session_invariant_step w e Hinv) as (Hnext & _).
  destruct Hinv as (Hsorted & _).
  split; [done|]. split; [by apply StronglySorted_lt_NoDup|].
  destruct (step_appends w e) as [new Hnew]. exists new. split; [done|].
  intros m m' Hm Hm'. rewrite Hnew, fmap_app in Hnext.
  eapply (StronglySorted_app_1_elem_of lt); [exact Hnext| |];
    by apply list_elem_of_fmap_2.
Qed.

(** C7: at every point of a session [isLoading] is [true] exactly while a
    call of [sendMessage] waits for its request.  A submission that goes
    out raises the flag and issues the one request; the continuation lowers
    it again whatever the request settled to (a reply, a status outside the
    200s, a failure of [fetch], a body that does not decode), and the next
    draft with visible text is accepted again. *)
Theorem isLoading_while_request_pending (storage : gmap string string)
  (prefersDark : bool) (t0 : Z) (events : list Event) :
  let w := session (num := num) fastapi storage prefersDark t0 events in
  (isLoading w = true ↔ is_Some (suspended w))
  ∧ (∀ now, rejected w = false → is_Some (endpoint fastapi) →
        let w' := sendMessage fastapi now w in
        isLoading w' = true ∧ is_Some (suspended w')
        ∧ length (fetched w') = length (fetched w) + 1)
  ∧ (∀ outcome now, is_Some (suspended w) →
        let w' := sendMessage_resume outcome now w in
        isLoading w' = false ∧ suspended w' = None
        ∧ ∀ draft, Js.trim draft ≠ "" →
                   rejected (setInputMessage draft w') = false).
Proof.
  intros w.
  pose proof (session_invariant_holds storage prefersDark t0 events)
    as (_ & Hload & _).
  fold w in Hload. split; [done|]. split.
  - intros now Hacc [target Ht]. unfold sendMessage. rewrite Hacc, Ht. simpl.
    split; [done|]. split; [by eexists|]. rewrite length_app. simpl. lia.
  - intros outcome now [len Hs]. unfold sendMessage_resume. rewrite Hs. simpl.
    split; [done|]. split; [done|].
    intros draft Hd. by apply rejected_false.
Qed.

(** ** The theme *)

Lemma applyDarkMode_fields w :
  isDarkMode (applyDarkMode w) = isDarkMode w
  ∧ localStorage (applyDarkMode w) !! "theme"
    = Some (if isDarkMode w then "dark" else "light")
  ∧ documentDark (applyDarkMode w) = isDarkMode w.
Proof.
  unfold applyDarkMode.
  destruct (isDarkMode w) eqn:E; unfold setItem, classList_dark;
    cbn [isDarkMode localStorage documentDark];
    by rewrite lookup_insert_eq.
Qed.

Lemma initialDarkMode_saved (storage : gmap string string) (dark prefersDark : bool) :
  storage !! "theme" = Some (if dark then "dark" else "light") →
  initialDarkMode storage prefersDark = dark.
Proof.
  intros Hsaved. unfold initialDarkMode. cbv zeta. rewrite Hsaved.
  destruct dark.
  - by rewrite bool_decide_eq_true_2.
  - by rewrite bool_decide_eq_false_2.
Qed.

Lemma isDarkMode_mount (storage : gmap string string) (prefersDark : bool) now :
  isDarkMode (mount (num := num) storage prefersDark now)
  = initialDarkMode storage prefersDark.
Proof. unfold mount. cbv zeta. simpl. by destruct (initialDarkMode _ _). Qed.

(** C9: toggling twice gives the theme flag it started from; after a
    toggle the entry [theme] of the local storage is ["dark"] when the flag
    is [true] and ["light"] when it is [false]; and a component mounted on
    that storage comes up with the same flag, whatever the environment
    prefers. *)
Theorem toggleDarkMode_twice_and_reload w :
  isDarkMode (toggleDarkMode (toggleDarkMode w)) = isDarkMode w
  ∧ let w' := toggleDarkMode w in
    isDarkMode w' = negb (isDarkMode w)
    ∧ localStorage w' !! "theme" = Some (if isDarkMode w' then "dark" else "light")
    ∧ ∀ prefersDark now,
        isDarkMode (mount (num := num) (localStorage w') prefersDark now)
        = isDarkMode w'.
Proof.
  assert (∀ x : World num,
            isDarkMode (toggleDarkMode x) = negb (isDarkMode x)) as Hflip.
  { intros x. unfold toggleDarkMode.
    by destruct (applyDarkMode_fields (setIsDarkMode (negb (isDarkMode x)) x))
      as (-> & _). }
  split; [by rewrite !Hflip, negb_involutive|].
  cbv zeta. split; [apply Hflip|].
  assert (localStorage (toggleDarkMode w) !! "theme"
          = Some (if isDarkMode (toggleDarkMode w) then "dark" else "light"))
    as Hsaved.
  { rewrite Hflip. unfold toggleDarkMode.
    by destruct (applyDarkMode_fields (setIsDarkMode (negb (isDarkMode w)) w))
      as (_ & -> & _). }
  split; [done|].
  intros prefersDark now. rewrite isDarkMode_mount.
  by apply initialDarkMode_saved.
Qed.

(** With no endpoint configured a session never calls [fetch]. *)
Lemma session_without_endpoint_never_fetches (storage : gmap string string)
  (prefersDark : bool) (t0 : Z) (events : list Event) :
  endpoint fastapi = None →
  fetched (session (num := num) fastapi storage prefersDark t0 events) = [].
Proof.
  intros Hconf. unfold session.
  apply (run_invariant (λ w, fetched w = [])).
  - intros w e Hw. destruct e as [value| |now|outcome now|]; simpl; try done.
    + unfold sendMessage. rewrite Hconf. by destruct (rejected w).
    + unfold sendMessage_resume. by destruct (suspended w).
    + unfold toggleDarkMode, applyDarkMode. simpl.
      by destruct (negb (isDarkMode w)).
  - by destruct (mount_fields storage prefersDark t0) as (_ & _ & _ & ->).
Qed.

End Properties.

(** * The properties on the small session *)

Lemma responseText_first_truthy_field_witness :
  let data : json Z :=
    JObject [("response", JString ""); ("message", JString "y")] in
  data ≠ JNull ∧ responseText data = Ok (JString "y").
Proof.
  intros data. assert (data ≠ JNull) as Hnull by done.
  split; [exact Hnull|].
  destruct (responseText_first_truthy_field data Hnull) as [_ Hfield].
  apply Hfield. intros s. done.
Defined.

(** The reply [{response: "", message: "y"}] has a [response] field, and
    the text shown is that of [message]. *)
Lemma responseText_skips_empty_response :
  let data : json Z :=
    JObject [("response", JString ""); ("message", JString "y")] in
  normalize_as_specified data = JString ""
  ∧ responseText data = Ok (JString "y")
  ∧ responseText data ≠ Ok (normalize_as_specified data).
Proof. repeat split. done. Qed.

(** C2 on the code: a reply with status 200 and the body [null] ends as a
    message marked as an error, carrying the text of the [TypeError], and
    not as the fixed sentence. *)
Theorem null_reply_is_shown_as_error :
  let w := run example_endpoint (typed "hi") [Submit 1; Settled (replied 200 JNull) 2] in
  last (messages w) =
  Some {| id := 3;
          text := JString "Sorry, I encountered an error: Cannot read properties of null (reading 'response')";
          sender := agent; timestamp := 2; isError := Some true |}
  ∧ last (messages w) ≠
    Some {| id := 3; text := JString no_response_text;
            sender := agent; timestamp := 2; isError := None |}.
Proof. split; [reflexivity|done]. Qed.

Lemma sendMessage_appends_witness :
  let w := typed " hi " in
  let w2 := run example_endpoint w [Submit 1; Settled (replied 200 (JString "hello")) 2] in
  rejected w = false ∧ length (messages w2) = length (messages w) + 2.
Proof.
  intros w w2. assert (rejected w = false) as Hacc by reflexivity.
  split; [exact Hacc|].
  destruct (sendMessage_appends example_endpoint w 1
              (replied 200 (JString "hello")) 2 Hacc) as (_ & _ & Hlen).
  exact Hlen.
Defined.

(** With no endpoint configured the store grows by one message, not two,
    and the user message is not among what was appended. *)
Lemma missing_endpoint_appends_one :
  let w := typed "hi" in
  let w2 := run None w [Submit 1; Settled (replied 200 (JString "hello")) 2] in
  rejected w = false
  ∧ length (messages w2) = length (messages w) + 1
  ∧ length (messages w2) ≠ length (messages w) + 2
  ∧ sender <$> messages w2 = [agent; agent].
Proof. repeat split. done. Qed.

Lemma sendMessage_rejected_is_noop_witness :
  let w := typed "   " in
  (Js.trim (inputMessage w) = "" ∨ whitespace_only (inputMessage w) = true
   ∨ isLoading w = true)
  ∧ sendMessage example_endpoint 1 w = w.
Proof.
  intros w.
  assert (Js.trim (inputMessage w) = "" ∨ whitespace_only (inputMessage w) = true
          ∨ isLoading w = true) as Hrej by (left; reflexivity).
  split; [exact Hrej|].
  exact (sendMessage_rejected_is_noop example_endpoint w 1 Hrej).
Defined.

Lemma error_messages_by_substring_witness :
  let w := sendMessage example_endpoint 1 (typed "hi") in
  let r : Response Z := {| status := 404; json_body := Ok JNull |} in
  suspended w = Some 1
  ∧ messages (sendMessage_resume (Ok r) 2 w) =
    messages w ++ [ {| id := 3; text := JString not_found_text; sender := agent;
                       timestamp := 2; isError := Some true |} ].
Proof.
  intros w r. assert (suspended w = Some 1) as Hs by reflexivity.
  split; [exact Hs|].
  destruct (error_messages_by_substring w 1 2 Hs) as (_ & Hhttp & _).
  exact (Hhttp r eq_refl).
Defined.

(** Status 503 is in the 500s, and the text is the general one. *)
Lemma status_503_gets_general_text :
  let w := run example_endpoint (typed "hi") [Submit 1; Settled (Ok {| status := 503; json_body := Ok JNull |}) 2] in
  text <$> last (messages w) =
    Some (JString "Sorry, I encountered an error: HTTP error! status: 503")
  ∧ text <$> last (messages w) ≠ Some (JString internal_error_text).
Proof. split; [reflexivity|done]. Qed.

Lemma sendMessage_without_endpoint_witness :
  let w := typed "hi" in
  rejected w = false
  ∧ (@None string = None ∨ @None string = Some "")
  ∧ fetched (sendMessage None 1 w) = fetched w.
Proof.
  intros w. assert (rejected w = false) as Hacc by reflexivity.
  assert (@None string = None ∨ @None string = Some "") as Hconf by (by left).
  split; [exact Hacc|]. split; [exact Hconf|].
  destruct (sendMessage_without_endpoint None w 1 Hacc Hconf) as (_ & Hf & _).
  exact Hf.
Defined.

Lemma sendMessage_sends_raw_text_witness :
  let w := typed " hi " in
  rejected w = false
  ∧ endpoint example_endpoint = Some "https://agent.example/chat"
  ∧ inputMessage (sendMessage example_endpoint 1 w) = "".
Proof.
  intros w. assert (rejected w = false) as Hacc by reflexivity.
  assert (endpoint example_endpoint = Some "https://agent.example/chat")
    as Hconf by reflexivity.
  split; [exact Hacc|]. split; [exact Hconf|].
  destruct (sendMessage_sends_raw_text example_endpoint w 1 _ Hacc Hconf)
    as (_ & _ & Hdraft).
  exact Hdraft.
Defined.

(** The request of that submission, as it goes out. *)
Example request_of_padded_draft :
  fetched (sendMessage example_endpoint 1 (typed " hi ")) =
  [ {| url := "https://agent.example/chat"; method := "POST";
       headers := [("Content-Type", "application/json")];
       body := "{" +:+ dquote +:+ "message" +:+ dquote +:+ ":"
               +:+ dquote +:+ " hi " +:+ dquote +:+ "}" |} ].
Proof. reflexivity. Qed.

(** * More about sessions *)

Section Sessions.
Context {num : Type} `{JsNumber num}.
Variable fastapi : option string.

Implicit Types (w : World num) (data v : json num) (now : Z).

(** ** The store only grows *)

(** X1: whatever happens, the messages that are in the store stay where
    they are, unchanged: the store before is a prefix of the store after. *)
Theorem store_is_append_only w (events : list Event) :
  messages w `prefix_of` messages (run fastapi w events).
Proof.
  revert w. induction events as [|e events IH]; intros w; [done|].
  simpl. etrans; [|apply IH].
  destruct (step_appends fastapi w e) as [new ->]. by apply prefix_app_r.
Qed.

(** ** The ids, exactly *)

Lemma seq_snoc (a n : nat) : seq a (S n) = seq a n ++ [a + n].
Proof. by rewrite seq_S. Qed.

Lemma toggleDarkMode_messages w :
  messages (toggleDarkMode w) = messages w
  ∧ isLoading (toggleDarkMode w) = isLoading w
  ∧ suspended (toggleDarkMode w) = suspended w
  ∧ fetched (toggleDarkMode w) = fetched w
  ∧ inputMessage (toggleDarkMode w) = inputMessage w.
Proof.
  unfold toggleDarkMode, applyDarkMode. simpl. by destruct (negb (isDarkMode w)).
Qed.

Lemma ids_counted_step w (e : Event) :
  is_Some (endpoint fastapi) →
  session_invariant fastapi w →
  id <$> messages w = seq 1 (length (messages w)) →
  id <$> messages (step fastapi w e)
  = seq 1 (length (messages (step fastapi w e))).
Proof.
  intros [target Ht] (_ & Hload & Hbound) Hids.
  destruct e as [value| |now|outcome now|]; simpl; try done.
  - unfold sendMessage. destruct (rejected w) eqn:Hrej; [done|].
    rewrite Ht. simpl. rewrite fmap_app, length_app, Hids. simpl.
    rewrite Nat.add_1_r, seq_snoc. f_equal; simpl; f_equal; lia.
  - unfold sendMessage_resume.
    destruct (suspended w) as [len|] eqn:Hs; [|done].
    destruct Hbound as (_ & Hlen & _). simpl.
    rewrite fmap_app, length_app, Hids. simpl.
    destruct (id_settled len now outcome) as [-> _].
    rewrite Nat.add_1_r, seq_snoc. f_equal; simpl; f_equal; lia.
  - by destruct (toggleDarkMode_messages w) as (-> & _).
Qed.

(** X2: with an endpoint configured the ids are the positions: at every
    point of a session the store holds the ids [1, 2, ..., n] in this
    order, [n] being the number of messages. *)
Theorem ids_are_positions (storage : gmap string string) (prefersDark : bool)
  (t0 : Z) (events : list Event) :
  is_Some (endpoint fastapi) →
  let w := session (num := num) fastapi storage prefersDark t0 events in
  id <$> messages w = seq 1 (length (messages w)).
Proof.
  intros Hconf. cbv zeta. unfold session.
  apply (run_invariant fastapi
           (λ w, session_invariant fastapi w
                 ∧ id <$> messages w = seq 1 (length (messages w)))).
  - intros w e [Hinv Hids]. split.
    + by apply session_invariant_step.
    + by apply ids_counted_step.
  - split; [apply session_invariant_mount|].
    by destruct (mount_fields (num := num) storage prefersDark t0) as (-> & _).
Qed.

(** X3: with no endpoint configured the id 2 is never given out: the store
    holds the greeting with id 1 and then the ids [3, 4, 5, ...] of the
    messages about the configuration. *)
Theorem ids_skip_two_without_endpoint (storage : gmap string string)
  (prefersDark : bool) (t0 : Z) (events : list Event) :
  endpoint fastapi = None →
  let w := session (num := num) fastapi storage prefersDark t0 events in
  id <$> messages w = 1 :: seq 3 (length (messages w) - 1).
Proof.
  intros Hconf. cbv zeta. unfold session.
  apply (run_invariant fastapi
           (λ w, suspended w = None
                 ∧ id <$> messages w = 1 :: seq 3 (length (messages w) - 1))).
  - intros w e [Hs Hids].
    destruct e as [value| |now|outcome now|]; simpl; try done.
    + unfold sendMessage. destruct (rejected w); [done|].
      rewrite Hconf. simpl. split; [done|].
      assert (length (messages w) ≠ 0) as Hlen.
      { intros Hz. apply (f_equal length) in Hids.
        rewrite length_fmap, Hz in Hids. done. }
      rewrite fmap_app, length_app, Hids. simpl.
      replace (length (messages w) + 1 - 1) with (S (length (messages w) - 1))
        by lia.
      rewrite seq_snoc. do 3 f_equal. lia.
    + unfold sendMessage_resume. by rewrite Hs.
    + by destruct (toggleDarkMode_messages w) as (-> & _ & -> & _).
  - by destruct (mount_fields (num := num) storage prefersDark t0)
      as (-> & _ & -> & _).
Qed.

(** ** Submitting again *)

(** X4: with an endpoint configured, submitting twice in a row is
    submitting once: the second call finds the request pending (or the
    draft as unfit as before) and returns. *)
Theorem sendMessage_twice w (t1 t2 : Z) :
  is_Some (endpoint fastapi) →
  sendMessage fastapi t2 (sendMessage fastapi t1 w) = sendMessage fastapi t1 w.
Proof.
  intros [target Ht]. destruct (rejected w) eqn:Hrej.
  - assert (sendMessage fastapi t1 w = w) as ->
      by (unfold sendMessage; by rewrite Hrej).
    unfold sendMessage. by rewrite Hrej.
  - assert (rejected (sendMessage fastapi t1 w) = true) as Hpending.
    { apply rejected_true. right. unfold sendMessage. by rewrite Hrej, Ht. }
    unfold sendMessage at 1. by rewrite Hpending.
Qed.

Lemma sendMessage_without_endpoint_again w now :
  endpoint fastapi = None →
  rejected w = false →
  let w' := sendMessage fastapi now w in
  length (messages w') = length (messages w) + 1
  ∧ inputMessage w' = inputMessage w
  ∧ fetched w' = fetched w
  ∧ rejected w' = false.
Proof.
  intros Hconf Hacc. cbv zeta. unfold sendMessage. rewrite Hacc, Hconf.
  simpl. rewrite length_app. simpl. done.
Qed.

(** X5: with no endpoint configured nothing stops a repetition: the draft
    stays in the entry field, and every further submission appends one
    more message about the configuration. *)
Theorem submissions_without_endpoint_pile_up w (times : list Z) :
  endpoint fastapi = None →
  rejected w = false →
  let w' := run fastapi w (Submit <$> times) in
  length (messages w') = length (messages w) + length times
  ∧ inputMessage w' = inputMessage w
  ∧ fetched w' = fetched w.
Proof.
  intros Hconf. revert w. induction times as [|t times IH]; intros w Hacc.
  - simpl. split; [lia|done].
  - cbv zeta.
    change (run fastapi w (Submit <$> t :: times))
      with (run fastapi (sendMessage fastapi t w) (Submit <$> times)).
    destruct (sendMessage_without_endpoint_again w t Hconf Hacc)
      as (Hlen1 & Hdraft1 & Hfetched1 & Hacc1).
    destruct (IH _ Hacc1) as (Hlen & Hdraft & Hfetched).
    rewrite Hlen, Hdraft, Hfetched, Hlen1, Hdraft1, Hfetched1. simpl.
    split; [lia|done].
Qed.

(** ** The Send button and the handler agree *)

(** X6: the Send button is disabled exactly when [sendMessage] would leave
    everything as it is; pressing Enter in the entry field, which calls
    [sendMessage] without asking the button, does nothing more than a click
    would. *)
Theorem sendDisabled_iff_noop w now :
  sendDisabled w = true ↔ sendMessage fastapi now w = w.
Proof.
  change (sendDisabled w) with (rejected w). unfold sendMessage. split.
  - by intros ->.
  - destruct (rejected w); [done|]. intros Hsame.
    apply (f_equal (λ x, length (messages x))) in Hsame.
    destruct (endpoint fastapi); simpl in Hsame;
      rewrite length_app in Hsame; simpl in Hsame; lia.
Qed.

(** ** What the continuation appends *)

Lemma responseText_not_null data :
  data ≠ JNull → ∃ v, responseText data = Ok v.
Proof.
  intros Hnull. destruct data as [|b|n|s|items|props]; try done;
    try (by eexists).
  rewrite responseText_object. by eexists.
Qed.

(** X7: the message appended when the request settles is marked as an
    error exactly when the request failed, that is, when [fetch] rejected,
    the status was outside 200 to 299, the body did not decode, or it
    decoded to [null]; in every case it is one message of the agent with
    the next id and the time of the settlement. *)
Theorem settled_message_is_error_iff_failed w (len : nat)
  (outcome : result (Response num)) now :
  suspended w = Some len →
  ∃ m, messages (sendMessage_resume outcome now w) = messages w ++ [m]
       ∧ id m = len + 2 ∧ sender m = agent ∧ timestamp m = now
       ∧ isError m = if failed outcome then Some true else None.
Proof.
  intros Hs. rewrite (sendMessage_resume_messages w len) by done.
  eexists. split; [reflexivity|].
  destruct (id_settled len now outcome) as [-> ->]. do 2 (split; [done|]).
  unfold agentMessage, failed.
  destruct outcome as [r|e]; simpl; [|done].
  destruct (ok r); simpl; [|done].
  destruct (json_body r) as [data|e]; simpl; [|done].
  destruct data as [|b|n|s|items|props]; [done|..];
    match goal with
    | |- context [responseText ?d] =>
        destruct (responseText_not_null d) as [v ->]; [done|]
    end; done.
Qed.

(** ** What holds of every message in the store *)

(** Whatever holds of the greeting, of every user message of an accepted
    submission, of the message about the configuration and of every
    message the continuation can append, holds of all messages of a
    session. *)
Lemma every_message (P : Message num → Prop) :
  (∀ now, P {| id := 1; text := JString greeting; sender := agent;
               timestamp := now; isError := None |}) →
  (∀ w now, rejected w = false → P (userMessage w now)) →
  (∀ n now, P {| id := n; text := JString not_configured_text; sender := agent;
                 timestamp := now; isError := Some true |}) →
  (∀ len now outcome,
     P (try_catch (agentMessage len now outcome) (errorMessage len now))) →
  ∀ (storage : gmap string string) (prefersDark : bool) (t0 : Z)
    (events : list Event),
    Forall P (messages (session fastapi storage prefersDark t0 events)).
Proof.
  intros Hgreeting Huser Hconf Hsettled storage prefersDark t0 events.
  unfold session. apply (run_invariant fastapi (λ w, Forall P (messages w))).
  - intros w e Hw. destruct e as [value| |now|outcome now|]; simpl; try done.
    + unfold sendMessage. destruct (rejected w) eqn:Hrej; [done|].
      destruct (endpoint fastapi); simpl; apply Forall_app; split; try done;
        repeat constructor; [by apply Huser|apply Hconf].
    + unfold sendMessage_resume. destruct (suspended w); [|done]. simpl.
      apply Forall_app. split; [done|]. repeat constructor. apply Hsettled.
    + by destruct (toggleDarkMode_messages w) as (-> & _).
  - destruct (mount_fields (num := num) storage prefersDark t0) as (-> & _).
    simpl. repeat constructor. apply Hgreeting.
Qed.

Lemma or_no_response_truthy v : truthy (or_no_response v) = true.
Proof. unfold or_no_response. by destruct (truthy v) eqn:E. Qed.

Lemma errorText_not_empty (e : thrown) : Js.string_truthy (errorText e) = true.
Proof.
  destruct e as [m|]; simpl; [|done].
  destruct (Js.includes m "Failed to fetch"); [done|].
  destruct (Js.includes m "500"); [done|].
  destruct (Js.includes m "404"); done.
Qed.

Lemma accepted_draft_not_empty w :
  rejected w = false → Js.string_truthy (inputMessage w) = true.
Proof.
  intros Hacc. apply rejected_false in Hacc as [Htrim _].
  destruct (inputMessage w); [done|done].
Qed.

(** The continuation appends a reply that is not marked, or the message of
    the [catch] block for what was thrown. *)
Lemma settled_cases (len : nat) now (outcome : result (Response num)) :
  (∃ v, try_catch (agentMessage len now outcome) (errorMessage len now)
        = {| id := len + 2; text := or_no_response v; sender := agent;
             timestamp := now; isError := None |})
  ∨ (∃ e, try_catch (agentMessage len now outcome) (errorMessage len now)
          = errorMessage len now e).
Proof.
  unfold agentMessage.
  destruct outcome as [r|e]; [|right; by exists e].
  change (Ok r ≫= _) with
    ((if negb (ok r) then Throw (http_error (status r)) else Ok tt) ≫=
       λ _ : unit, json_body r ≫= λ data, responseText data ≫= λ t,
         Ok {| id := len + 2; text := or_no_response t; sender := agent;
               timestamp := now; isError := None |}).
  destruct (ok r); [|right; exists (http_error (status r)); reflexivity].
  destruct (json_body r) as [data|e]; [|right; exists e; reflexivity].
  cbn [negb mbind result_bind].
  destruct (responseText data) as [v|e];
    [left; exists v; reflexivity|right; exists e; reflexivity].
Qed.

(** X8: no bubble is ever empty: at every point of a session the text of
    every message in the store is truthy (for a string: not empty). *)
Theorem no_message_without_text (storage : gmap string string)
  (prefersDark : bool) (t0 : Z) (events : list Event) :
  Forall (λ m, truthy (text m) = true)
    (messages (session (num := num) fastapi storage prefersDark t0 events)).
Proof.
  apply every_message.
  - done.
  - intros w now Hacc. simpl. by apply accepted_draft_not_empty.
  - done.
  - intros len now outcome.
    destruct (settled_cases len now outcome) as [[v ->]|[e ->]].
    + apply or_no_response_truthy.
    + apply errorText_not_empty.
Qed.

(** X9: the red bubble shows exactly the errors: for every message in the
    store of a session and either theme, [bubbleClass] picks a red bubble
    if and only if the message is marked as an error.  (The test on the
    sender comes first in the chain; it hides nothing, since no user
    message is ever marked.) *)
Theorem red_bubble_iff_error (storage : gmap string string)
  (prefersDark : bool) (t0 : Z) (events : list Event) :
  Forall (λ m, ∀ dark, red_bubble (bubbleClass dark m) = true
                       ↔ isError m = Some true)
    (messages (session (num := num) fastapi storage prefersDark t0 events)).
Proof.
  assert (∀ m : Message num,
            (sender m = user ∧ isError m = None)
            ∨ (sender m = agent ∧ (isError m = None ∨ isError m = Some true)) →
            ∀ dark, red_bubble (bubbleClass dark m) = true
                    ↔ isError m = Some true) as Hcases.
  { intros m [[Hu He]|[Ha [He|He]]] dark; unfold bubbleClass;
      [rewrite Hu|rewrite Ha|rewrite Ha]; rewrite He; destruct dark; done. }
  apply every_message.
  - intros now. apply Hcases. right. split; [done|by left].
  - intros w now _. apply Hcases. by left.
  - intros n now. apply Hcases. right. split; [done|by right].
  - intros len now outcome. apply Hcases. right.
    destruct (settled_cases len now outcome) as [[v ->]|[e ->]].
    + split; [done|by left].
    + split; [done|by right].
Qed.

(** ** Requests and user messages *)

Lemma exchanges_snoc (k : nat) : exchanges k ++ [user; agent] = exchanges (S k).
Proof. induction k as [|k IH]; [done|]. simpl. by rewrite IH. Qed.

(** X10: with an endpoint configured the store is the greeting followed by
    whole exchanges, a user message and then the message of the agent for
    it, plus the one user message still waiting for its answer while
    [isLoading] is up; and [fetch] has been called once for every user
    message. *)
Theorem store_is_greeting_and_exchanges (storage : gmap string string)
  (prefersDark : bool) (t0 : Z) (events : list Event) :
  is_Some (endpoint fastapi) →
  let w := session (num := num) fastapi storage prefersDark t0 events in
  ∃ k, sender <$> messages w
       = agent :: exchanges k ++ (if isLoading w then [user] else [])
       ∧ length (fetched w) = k + (if isLoading w then 1 else 0).
Proof.
  intros [target Ht]. cbv zeta. unfold session.
  apply (run_invariant fastapi
           (λ w, session_invariant fastapi w
                 ∧ ∃ k, sender <$> messages w
                        = agent :: exchanges k
                          ++ (if isLoading w then [user] else [])
                        ∧ length (fetched w)
                          = k + (if isLoading w then 1 else 0))).
  - intros w e [Hinv Hshape]. split; [by apply session_invariant_step|].
    destruct Hinv as (_ & Hload & _). destruct Hshape as (k & Hsenders & Hcalls).
    destruct e as [value| |now|outcome now|]; simpl.
    + by exists k.
    + by exists k.
    + unfold sendMessage. destruct (rejected w) eqn:Hrej; [by exists k|].
      apply rejected_false in Hrej as [_ Hidle]. rewrite Ht. simpl.
      rewrite Hidle in Hsenders, Hcalls. exists k.
      rewrite fmap_app, length_app, Hsenders, Hcalls. simpl.
      rewrite app_nil_r. split; [done|lia].
    + unfold sendMessage_resume.
      destruct (suspended w) as [len|] eqn:Hs; [|by exists k].
      assert (isLoading w = true) as Hbusy by (apply Hload; by eexists).
      rewrite Hbusy in Hsenders, Hcalls. cbn -[exchanges]. exists (S k).
      rewrite fmap_app, Hsenders, Hcalls, <- exchanges_snoc.
      cbn -[exchanges].
      destruct (id_settled len now outcome) as [_ ->].
      rewrite <- !app_assoc, app_nil_r. split; [done|lia].
    + destruct (toggleDarkMode_messages w) as (-> & -> & _ & -> & _).
      by exists k.
  - split; [apply session_invariant_mount|].
    destruct (mount_fields (num := num) storage prefersDark t0)
      as (-> & -> & _ & ->).
    by exists 0.
Qed.

(** X11: what was sent is what is shown: at every point of a session the
    [message] fields of the request bodies, read back in the order the
    requests went out, are the texts of the user messages in the store, in
    the order they stand there. *)
Theorem requests_carry_the_user_messages (storage : gmap string string)
  (prefersDark : bool) (t0 : Z) (events : list Event) :
  let w := session (num := num) fastapi storage prefersDark t0 events in
  (λ r, JString <$> message_of_body (body r)) <$> fetched w
  = (λ m, Some (text m)) <$> List.filter from_user (messages w).
Proof.
  cbv zeta. unfold session.
  apply (run_invariant fastapi
           (λ w, (λ r, @JString num <$> message_of_body (body r)) <$> fetched w
                 = (λ m, Some (text m)) <$> List.filter from_user (messages w))).
  - intros w e Hw. destruct e as [value| |now|outcome now|]; simpl; try done.
    + unfold sendMessage. destruct (rejected w); [done|].
      destruct (endpoint fastapi) as [target|].
      * cbn [fetched messages set_suspended fetch setIsLoading
               setInputMessage setMessages].
        rewrite List.filter_app, !fmap_app, Hw. f_equal.
        unfold request. cbn [fmap list_fmap body].
        by rewrite (message_of_body_stringify (num := num)).
      * simpl. rewrite List.filter_app. simpl. by rewrite app_nil_r.
    + unfold sendMessage_resume. destruct (suspended w) as [len|]; [|done].
      simpl. rewrite List.filter_app. simpl. unfold from_user at 2.
      destruct (id_settled len now outcome) as [_ ->]. by rewrite app_nil_r.
    + by destruct (toggleDarkMode_messages w) as (-> & _ & _ & -> & _).
  - by destruct (mount_fields (num := num) storage prefersDark t0)
      as (-> & _ & _ & ->).
Qed.

(** X12: every request of a session is a [POST] of JSON to the configured
    endpoint, and to nothing else. *)
Theorem requests_go_to_the_endpoint (storage : gmap string string)
  (prefersDark : bool) (t0 : Z) (events : list Event) :
  Forall (λ r, fastapi = Some (url r) ∧ url r ≠ ""
               ∧ method r = "POST"
               ∧ headers r = [("Content-Type", "application/json")])
    (fetched (session (num := num) fastapi storage prefersDark t0 events)).
Proof.
  unfold session.
  apply (run_invariant fastapi
           (λ w : World num,
              Forall (λ r, fastapi = Some (url r) ∧ url r ≠ ""
                           ∧ method r = "POST"
                           ∧ headers r = [("Content-Type", "application/json")])
                (fetched w))).
  - intros w e Hw. destruct e as [value| |now|outcome now|]; simpl; try done.
    + unfold sendMessage. destruct (rejected w); [done|].
      destruct (endpoint fastapi) as [target|] eqn:Ht; simpl; [|done].
      apply Forall_app. split; [done|]. repeat constructor; simpl.
      * unfold endpoint in Ht. destruct fastapi as [u|]; [|done].
        destruct (Js.string_truthy u); by simplify_eq.
      * unfold endpoint in Ht. destruct fastapi as [u|]; [|done].
        destruct u; simpl in Ht; by simplify_eq.
    + unfold sendMessage_resume. by destruct (suspended w).
    + by destruct (toggleDarkMode_messages w) as (_ & _ & _ & -> & _).
  - by destruct (mount_fields (num := num) storage prefersDark t0)
      as (_ & _ & _ & ->).
Qed.

(** ** The theme, over whole sessions *)

Lemma step_keeps_theme w (e : Event) :
  e ≠ ToggleDarkMode →
  isDarkMode (step fastapi w e) = isDarkMode w
  ∧ localStorage (step fastapi w e) = localStorage w
  ∧ documentDark (step fastapi w e) = documentDark w.
Proof.
  intros Hother. destruct e as [value| |now|outcome now|]; simpl; try done.
  - unfold sendMessage. destruct (rejected w); [done|].
    by destruct (endpoint fastapi).
  - unfold sendMessage_resume. by destruct (suspended w).
Qed.

Lemma mount_theme (storage : gmap string string) (prefersDark : bool) now :
  let w := mount (num := num) storage prefersDark now in
  localStorage w !! "theme" = Some (if isDarkMode w then "dark" else "light")
  ∧ documentDark w = isDarkMode w.
Proof.
  cbv zeta. unfold mount. cbv zeta.
  destruct (initialDarkMode _ _).
  - destruct (applyDarkMode_fields
                (setIsDarkMode true
                   (applyDarkMode (first_render (num := num) storage now))))
      as (-> & -> & ->). done.
  - destruct (applyDarkMode_fields (first_render (num := num) storage now))
      as (-> & -> & ->). done.
Qed.

(** X13: the stored preference and the class of the document mirror the
    flag: at every point of a session the entry [theme] of the local
    storage is ["dark"] when [isDarkMode] is [true] and ["light"] when it
    is [false], and the document carries the class [dark] exactly when the
    flag is [true]. *)
Theorem theme_is_mirrored (storage : gmap string string) (prefersDark : bool)
  (t0 : Z) (events : list Event) :
  let w := session (num := num) fastapi storage prefersDark t0 events in
  localStorage w !! "theme" = Some (if isDarkMode w then "dark" else "light")
  ∧ documentDark w = isDarkMode w.
Proof.
  cbv zeta. unfold session.
  apply (run_invariant fastapi
           (λ w : World num,
              localStorage w !! "theme"
              = Some (if isDarkMode w then "dark" else "light")
              ∧ documentDark w = isDarkMode w)).
  - intros w e Hw.
    assert (e = ToggleDarkMode ∨ e ≠ ToggleDarkMode) as [->|Hother]
      by (destruct e; by (left + right)).
    + simpl. unfold toggleDarkMode.
      destruct (applyDarkMode_fields (setIsDarkMode (negb (isDarkMode w)) w))
        as (-> & -> & ->). done.
    + by destruct (step_keeps_theme w e Hother) as (-> & -> & ->).
  - apply mount_theme.
Qed.

(** X14: a reload keeps the theme: a component mounted on the storage that
    a session leaves behind, at whatever point, comes up with the flag of
    that session, whatever the environment prefers by then. *)
Theorem reload_keeps_theme (storage : gmap string string) (prefersDark : bool)
  (t0 : Z) (events : list Event) (prefersDark' : bool) (t1 : Z) :
  let w := session (num := num) fastapi storage prefersDark t0 events in
  isDarkMode (mount (num := num) (localStorage w) prefersDark' t1)
  = isDarkMode w.
Proof.
  cbv zeta. rewrite isDarkMode_mount. apply initialDarkMode_saved.
  apply theme_is_mirrored.
Qed.

(** X15: how the theme is resolved at mount: a stored ["dark"] gives the
    dark theme; no stored entry, or an empty one, gives what the
    environment prefers; any other stored text gives the light theme, also
    when the environment prefers the dark one. *)
Theorem mount_resolves_theme (storage : gmap string string) (prefersDark : bool)
  now :
  isDarkMode (mount (num := num) storage prefersDark now)
  = match storage !! "theme" with
    | None => prefersDark
    | Some saved =>
        if String.eqb saved "dark" then true
        else if Js.is_empty saved then prefersDark else false
    end.
Proof.
  rewrite isDarkMode_mount. unfold initialDarkMode. cbv zeta.
  destruct (storage !! "theme") as [saved|]; simpl; [|done].
  destruct (String.eqb_spec saved "dark") as [->|Hne].
  - by rewrite bool_decide_eq_true_2.
  - rewrite bool_decide_eq_false_2 by congruence.
    unfold Js.string_truthy. by destruct (Js.is_empty saved).
Qed.

(** X16: the theme and the conversation do not touch each other: toggling
    before any other event gives the same world as toggling after it. *)
Theorem toggleDarkMode_commutes w (e : Event) :
  step fastapi (toggleDarkMode w) e = toggleDarkMode (step fastapi w e).
Proof.
  destruct w as [ms draft loading dark store doc calls waiting].
  destruct e as [value| |now|outcome now|];
    unfold step, toggleDarkMode, applyDarkMode, handleExampleClick,
      sendMessage, sendMessage_resume, rejected;
    destruct dark;
    repeat (cbn [negb messages inputMessage isLoading isDarkMode localStorage
                 documentDark fetched suspended setIsDarkMode setInputMessage
                 setMessages setIsLoading fetch set_suspended setItem
                 classList_dark];
            match goal with
            | |- context [if ?b then _ else _] =>
                lazymatch b with
                | context [isDarkMode] => fail
                | _ => destruct b
                end
            | |- context [match ?o with Some _ => _ | None => _ end] =>
                lazymatch o with
                | context [isDarkMode] => fail
                | _ => destruct o
                end
            end);
    reflexivity.
Qed.

(** ** Time *)

Lemma step_stamps w (e : Event) :
  ∃ new, messages (step fastapi w e) = messages w ++ new
         ∧ Forall (λ m, clock e = Some (timestamp m)) new.
Proof.
  destruct e as [value| |now|outcome now|]; simpl.
  - exists []. by rewrite app_nil_r.
  - exists []. by rewrite app_nil_r.
  - unfold sendMessage. destruct (rejected w).
    + exists []. by rewrite app_nil_r.
    + destruct (endpoint fastapi); simpl; eexists; split; try done;
        by repeat constructor.
  - unfold sendMessage_resume. destruct (suspended w) as [len|]; simpl.
    + eexists. split; [done|]. repeat constructor.
      by destruct (settled_cases len now outcome) as [[v ->]|[e ->]].
    + exists []. by rewrite app_nil_r.
  - exists []. destruct (toggleDarkMode_messages w) as (-> & _).
    by rewrite app_nil_r.
Qed.

Lemma stamps_sorted_run (events : list Event) w (T : Z) :
  StronglySorted Z.le (timestamp <$> messages w) →
  Forall (λ m, (timestamp m ≤ T)%Z) (messages w) →
  StronglySorted Z.le (T :: omap clock events) →
  StronglySorted Z.le (timestamp <$> messages (run fastapi w events)).
Proof.
  revert w T. induction events as [|e events IH]; intros w T Hsorted Hbound Hclock.
  - done.
  - simpl. destruct (step_stamps w e) as (new & Hnew & Hstamps).
    destruct (clock e) as [now|] eqn:Hnow; simpl in Hclock.
    + rewrite Hnow in Hclock.
      apply StronglySorted_cons in Hclock as [Hle Hrest].
      apply Forall_cons in Hle as [Hle _].
      apply (IH _ now); [| |done].
      * rewrite Hnew, fmap_app. apply StronglySorted_app_2; [|done|].
        -- intros t1 t2 Ht1 Ht2.
           apply list_elem_of_fmap in Ht1 as (m1 & -> & Hm1).
           apply list_elem_of_fmap in Ht2 as (m2 & -> & Hm2).
           rewrite Forall_forall in Hbound, Hstamps.
           specialize (Hbound m1 Hm1). specialize (Hstamps m2 Hm2).
           simpl in Hbound. injection Hstamps as ->. lia.
        -- clear Hnew. induction Hstamps as [|m new Hm Hstamps IHnew];
             [constructor|].
           simpl. constructor; [done|].
           apply Forall_fmap. eapply Forall_impl; [exact Hstamps|].
           intros m' Hm'. simpl. injection Hm as ->. injection Hm' as ->. lia.
      * rewrite Hnew. apply Forall_app. split.
        -- eapply Forall_impl; [exact Hbound|]. intros m Hm. simpl in *. lia.
        -- eapply Forall_impl; [exact Hstamps|]. intros m Hm. simpl.
           injection Hm as ->. lia.
    + rewrite Hnow in Hclock. destruct new as [|m new].
      * rewrite app_nil_r in Hnew. apply (IH _ T); by rewrite ?Hnew.
      * by apply Forall_cons in Hstamps as [? _].
Qed.

(** X17: when the clock never runs backwards (each reading an event brings
    is at least the one before, starting from the time of mounting), the
    timestamps in the store never decrease from one message to the next. *)
Theorem timestamps_follow_the_clock (storage : gmap string string)
  (prefersDark : bool) (t0 : Z) (events : list Event) :
  Sorted Z.le (t0 :: omap clock events) →
  StronglySorted Z.le
    (timestamp <$> messages (session (num := num) fastapi storage prefersDark
                               t0 events)).
Proof.
  intros Hclock. unfold session. apply (stamps_sorted_run events _ t0).
  - destruct (mount_fields (num := num) storage prefersDark t0) as (-> & _).
    simpl. repeat constructor.
  - destruct (mount_fields (num := num) storage prefersDark t0) as (-> & _).
    simpl. repeat constructor. simpl. lia.
  - apply Sorted.Sorted_StronglySorted; [|done].
    intros x y z. apply Z.le_trans.
Qed.

(** ** The two versions of the component *)

(** X18: the second version of the component shows what the first one
    showed wherever the first one found a text: when
    [data.response || data.message || '...'] yields anything but the fixed
    sentence, [responseText] yields the same value; and the two throw on
    the same bodies. *)
Theorem second_version_keeps_first_version_text data :
  (∀ v, first_version_text data = Ok v → v ≠ JString no_response_text →
        responseText data = Ok v)
  ∧ (∀ e, first_version_text data = Throw e ↔ responseText data = Throw e).
Proof.
  destruct data as [|b|n|s|items|props].
  - split; [done|]. intros e. split; by intros [= <-].
  - split; [by intros v [= <-] Hv|]. intros e. split; done.
  - split; [by intros v [= <-] Hv|]. intros e. split; done.
  - split; [by intros v [= <-] Hv|]. intros e. split; done.
  - split; [by intros v [= <-] Hv|]. intros e. split; done.
  - rewrite responseText_object. cbv zeta.
    unfold first_version_text. simpl.
    destruct (if_truthy (own_property props "response")) as [a|];
      [split; [by intros v [= <-] _|intros e; split; done]|].
    destruct (if_truthy (own_property props "message")) as [a|];
      [split; [by intros v [= <-] _|intros e; split; done]|].
    split; [by intros v [= <-] Hv|]. intros e.
    destruct (if_truthy (own_property props "content")); split; done.
Qed.

(** ** The type of the text *)

(** X19: [Message.text] is declared a string, and it is one, as long as
    the reply does not put anything else that is truthy into the fields
    that are looked at: when none of [response], [message], [content]
    holds a truthy value that is not a string, the text of the appended
    message is a string. *)
Theorem text_is_a_string_for_string_fields data v :
  (∀ name x, name ∈ ["response"; "message"; "content"] →
             field data name = Some x → truthy x = true →
             ∃ s, x = JString s) →
  responseText data = Ok v →
  ∃ s, or_no_response v = JString s.
Proof.
  intros Hfields Hv.
  assert ((∃ s, v = JString s)
          ∨ ∃ name, name ∈ ["response"; "message"; "content"]
                    ∧ field data name = Some v ∧ truthy v = true) as Hcases.
  { destruct data as [|b|n|s|items|props];
      try (injection Hv as <-; left; by eexists); [done|].
    rewrite responseText_object in Hv. cbv zeta in Hv. simpl.
    destruct (if_truthy (own_property props "response")) as [a|] eqn:E1.
    { injection Hv as <-. apply if_truthy_Some in E1 as [? ?].
      right. exists "response". set_solver. }
    destruct (if_truthy (own_property props "message")) as [a|] eqn:E2.
    { injection Hv as <-. apply if_truthy_Some in E2 as [? ?].
      right. exists "message". set_solver. }
    destruct (if_truthy (own_property props "content")) as [a|] eqn:E3.
    { injection Hv as <-. apply if_truthy_Some in E3 as [? ?].
      right. exists "content". set_solver. }
    injection Hv as <-. left. by eexists. }
  assert (∃ s, v = JString s) as [s ->].
  { destruct Hcases as [?|(name & Hin & Hf & Ht)]; [done|].
    by apply (Hfields name). }
  unfold or_no_response. destruct (truthy (JString s)); by eexists.
Qed.

(** ** The example button *)

(** X20: the example button always leaves a draft that can be sent: after
    it the Send button is disabled only while a request is pending, and a
    submission with an endpoint configured posts the example text. *)
Theorem handleExampleClick_is_sendable w now :
  sendDisabled (handleExampleClick w) = isLoading w
  ∧ (isLoading w = false → ∀ target, endpoint fastapi = Some target →
     ∃ r, fetched (sendMessage fastapi now (handleExampleClick w))
          = fetched w ++ [r]
          ∧ message_of_body (body r) = Some "Check weather in Karachi").
Proof.
  split; [done|]. intros Hidle target Ht.
  assert (rejected (handleExampleClick w) = false) as Hacc.
  { apply rejected_false. by split. }
  destruct (sendMessage_sends_raw_text fastapi (handleExampleClick w) now
              target Hacc Ht) as (_ & (r & Hr & _ & _ & _ & Hbody) & _).
  by exists r.
Qed.

End Sessions.

(** * More on the small session *)

Lemma ids_are_positions_witness :
  let events : list (@Event Z) :=
    [Change "hi"; Submit 1; Settled (replied 200 (JString "hello")) 2] in
  let w := session example_endpoint ∅ false 0 events in
  is_Some (endpoint example_endpoint)
  ∧ id <$> messages w = seq 1 (length (messages w)).
Proof.
  intros events w.
  assert (is_Some (endpoint example_endpoint)) as Hconf by (by eexists).
  split; [exact Hconf|].
  exact (ids_are_positions example_endpoint ∅ false 0 events Hconf).
Defined.

Lemma ids_skip_two_without_endpoint_witness :
  let events : list (@Event Z) := [Change "hi"; Submit 1; Submit 2] in
  let w := session None ∅ false 0 events in
  endpoint None = None
  ∧ id <$> messages w = 1 :: seq 3 (length (messages w) - 1).
Proof.
  intros events w. assert (endpoint None = None) as Hconf by reflexivity.
  split; [exact Hconf|].
  exact (ids_skip_two_without_endpoint None ∅ false 0 events Hconf).
Defined.

Lemma sendMessage_twice_witness :
  let w := typed "hi" in
  is_Some (endpoint example_endpoint)
  ∧ sendMessage example_endpoint 2 (sendMessage example_endpoint 1 w)
    = sendMessage example_endpoint 1 w.
Proof.
  intros w.
  assert (is_Some (endpoint example_endpoint)) as Hconf by (by eexists).
  split; [exact Hconf|].
  exact (sendMessage_twice example_endpoint w 1 2 Hconf).
Defined.

Lemma submissions_without_endpoint_pile_up_witness :
  let w := typed "hi" in
  endpoint None = None
  ∧ rejected w = false
  ∧ length (messages (run None w (Submit <$> [1; 2; 3]%Z)))
    = length (messages w) + length [1; 2; 3]%Z.
Proof.
  intros w. assert (endpoint None = None) as Hconf by reflexivity.
  assert (rejected w = false) as Hacc by reflexivity.
  split; [exact Hconf|]. split; [exact Hacc|].
  destruct (submissions_without_endpoint_pile_up None w [1; 2; 3]%Z Hconf Hacc)
    as (Hlen & _).
  exact Hlen.
Defined.

Lemma settled_message_is_error_iff_failed_witness :
  let w := sendMessage example_endpoint 1 (typed "hi") in
  suspended w = Some 1
  ∧ ∃ m, messages (sendMessage_resume (replied 200 (JString "hello")) 2 w)
         = messages w ++ [m]
         ∧ id m = 1 + 2 ∧ sender m = agent ∧ timestamp m = 2%Z
         ∧ isError m = if failed (replied 200 (JString "hello"))
                       then Some true else None.
Proof.
  intros w. assert (suspended w = Some 1) as Hs by reflexivity.
  split; [exact Hs|].
  exact (settled_message_is_error_iff_failed w 1
           (replied 200 (JString "hello")) 2 Hs).
Defined.

Lemma store_is_greeting_and_exchanges_witness :
  let events : list (@Event Z) :=
    [Change "hi"; Submit 1; Settled (replied 200 (JString "hello")) 2;
     Change "more"; Submit 3] in
  let w := session example_endpoint ∅ false 0 events in
  is_Some (endpoint example_endpoint)
  ∧ ∃ k, sender <$> messages w
         = agent :: exchanges k ++ (if isLoading w then [user] else [])
         ∧ length (fetched w) = k + (if isLoading w then 1 else 0).
Proof.
  intros events w.
  assert (is_Some (endpoint example_endpoint)) as Hconf by (by eexists).
  split; [exact Hconf|].
  exact (store_is_greeting_and_exchanges example_endpoint ∅ false 0 events Hconf).
Defined.

Lemma timestamps_follow_the_clock_witness :
  let events : list (@Event Z) :=
    [Change "hi"; Submit 1; Settled (replied 200 (JString "hello")) 2] in
  Sorted Z.le (0%Z :: omap clock events)
  ∧ StronglySorted Z.le
      (timestamp <$> messages (session example_endpoint ∅ false 0 events)).
Proof.
  intros events.
  assert (Sorted Z.le (0%Z :: omap clock events)) as Hclock.
  { repeat constructor; unfold Z.le; simpl; discriminate. }
  split; [exact Hclock|].
  exact (timestamps_follow_the_clock example_endpoint ∅ false 0 events Hclock).
Defined.

Lemma text_is_a_string_for_string_fields_witness :
  let data : json Z := JObject [("response", JString "x")] in
  (∀ name x, name ∈ ["response"; "message"; "content"] →
             field data name = Some x → truthy x = true →
             ∃ s, x = JString s)
  ∧ responseText data = Ok (JString "x")
  ∧ ∃ s, or_no_response (@JString Z "x") = JString s.
Proof.
  intros data.
  assert (∀ name x, name ∈ ["response"; "message"; "content"] →
                    field data name = Some x → truthy x = true →
                    ∃ s, x = JString s) as Hfields.
  { intros name x Hin Hf _.
    rewrite !elem_of_cons, elem_of_nil in Hin.
    destruct Hin as [->|[->|[->|[]]]]; cbv in Hf; [|discriminate..].
    injection Hf as <-. by eexists. }
  assert (responseText data = Ok (JString "x")) as Hv by reflexivity.
  split; [exact Hfields|]. split; [exact Hv|].
  exact (text_is_a_string_for_string_fields data (JString "x") Hfields Hv).
Defined.

(** The ids of one exchange, and of two submissions without an endpoint. *)
Example ids_with_endpoint :
  id <$> messages (session example_endpoint ∅ false 0
                     [Change "hi"; Submit 1;
                      Settled (replied 200 (JString "hello")) 2])
  = [1; 2; 3].
Proof. reflexivity. Qed.

Example ids_without_endpoint :
  id <$> messages (session (num := Z) None ∅ false 0
                     [Change "hi"; Submit 1; Submit 2])
  = [1; 3; 4].
Proof. reflexivity. Qed.
